(** * Ice cream topping recommender: the tool, its elicitation and the dispatcher

    A shallow embedding of [src/server/McpServer.ts].

    - JavaScript values are a data type ([JsValue]); objects are finite maps
      from property names to values.
    - A handler is a program in the monad [Prog]: it returns, throws, asks the
      client through the elicitation channel, or writes to the console.
      [run] executes a program against a channel and records what happened.
    - Strings are sequences of bytes (the UTF-8 text of the source file);
      the code only concatenates and compares them. *)

From stdpp Require Import gmap strings list pretty.
From Stdlib Require Import ZArith.

Local Open Scope string_scope.
Local Open Scope list_scope.

#[local] Set Warnings "-register-all".

(* ================================================================== *)
(** ** JavaScript values *)
(* ================================================================== *)

(** Primitive values. A number is modelled by an integer: the code never
    computes with numbers, it tests them for truthiness, compares them with
    string literals and prints them; a fraction behaves in the tests as a
    non-zero integer. From 10^21 on, where JavaScript prints the shortest
    digits that identify the double, an integer stands for the double
    nearest to it. *)
Inductive Primitive : Type :=
| PUndefined
| PNull
| PBoolean (b : bool)
| PNumber (n : Z)
| PString (s : string).

(** Values as they arrive in [args] and in an elicitation result (typed
    [any] in the source): primitives, arrays, and plain objects. *)
Inductive JsValue : Type :=
| JsPrim (p : Primitive)
| JsArray (items : list JsValue)
| JsObject (props : gmap string JsValue).

Coercion JsPrim : Primitive >-> JsValue.

Abbreviation JsUndefined := (JsPrim PUndefined).
Abbreviation JsNull := (JsPrim PNull).
Abbreviation JsBool b := (JsPrim (PBoolean b)).
Abbreviation JsString s := (JsPrim (PString s)).
Abbreviation JsNumber n := (JsPrim (PNumber n)).

(** What a [throw] or a rejected promise carries: an [Error] instance with
    its [message]; a primitive; or another object that is not an [Error],
    given by the string that [String] converts it to (["[object Object]"]
    for a plain object, what its [toString] returns for others). An object
    whose conversion to a string itself throws is not represented. *)
Inductive Thrown : Type :=
| ErrorInstance (message : string)
| NonError (p : Primitive)
| NonErrorObject (rendering : string).

(** Outcome of an awaited promise. *)
Inductive Settled : Type :=
| Fulfilled (v : JsValue)
| Rejected (e : Thrown).

Module Js.

(** ToBoolean. *)
Definition truthy (v : JsValue) : bool :=
  match v with
  | JsPrim PUndefined | JsPrim PNull => false
  | JsPrim (PBoolean b) => b
  | JsPrim (PNumber n) => negb (n =? 0)%Z
  | JsPrim (PString s) => negb (String.eqb s "")
  | JsArray _ | JsObject _ => true
  end.

(** [a || b]. *)
Definition or (a b : JsValue) : JsValue := if truthy a then a else b.

(** [v === "lit"] against a string literal. *)
Definition strict_eq_string (v : JsValue) (lit : string) : bool :=
  match v with
  | JsPrim (PString s) => String.eqb s lit
  | _ => false
  end.

(** The double nearest to a natural number, ties to even: 53 significant
    bits are kept. *)
Definition nearestDouble (m : Z) : Z :=
  let bits := (Z.log2 m + 1)%Z in
  if (bits <=? 53)%Z then m
  else
    let shift := (bits - 53)%Z in
    let q := Z.shiftr m shift in
    let rest := (m - Z.shiftl q shift)%Z in
    let half := Z.shiftl 1 (shift - 1) in
    let q' :=
      if (half <? rest)%Z || ((rest =? half)%Z && Z.odd q) then (q + 1)%Z
      else q in
    Z.shiftl q' shift.

(** Number of decimal digits. *)
Definition digitCount (m : Z) : Z := Z.of_nat (String.length (pretty m)).

Fixpoint dropTrailingZeros (s : string) : string :=
  match s with
  | EmptyString => EmptyString
  | String.String c rest =>
      match dropTrailingZeros rest with
      | EmptyString =>
          if String.eqb (String.String c EmptyString) "0" then EmptyString
          else String.String c EmptyString
      | r => String.String c r
      end
  end.

(** The decimal of [k] significant digits that the double [d] is the
    nearest double of, if there is one; of two, the one closer to [d], and
    at equal distance the one with an even last digit. *)
Definition shortestWith (d k : Z) : option Z :=
  let scale := (10 ^ (digitCount d - k))%Z in
  let lo := (d / scale * scale)%Z in
  let hi := (lo + scale)%Z in
  let okLo := (nearestDouble lo =? d)%Z in
  let okHi := (nearestDouble hi =? d)%Z in
  if okLo && okHi then
    if (d - lo <? hi - d)%Z then Some lo
    else if (hi - d <? d - lo)%Z then Some hi
    else if Z.even (d / scale) then Some lo else Some hi
  else if okLo then Some lo
  else if okHi then Some hi
  else None.

(** The decimal with the fewest significant digits that identifies [d]. *)
Fixpoint shortestFrom (d : Z) (ks : list Z) : Z :=
  match ks with
  | [] => d
  | k :: rest =>
      match shortestWith d k with
      | Some v => v
      | None => shortestFrom d rest
      end
  end.

(** [v] in exponent form: one digit, the other significant digits after a
    point, and the exponent. *)
Definition exponential (v : Z) : string :=
  let e := (digitCount v - 1)%Z in
  match dropTrailingZeros (pretty v) with
  | String.String c EmptyString => String.String c ("e+" +:+ pretty e)
  | String.String c rest =>
      String.String c ("." +:+ rest +:+ "e+" +:+ pretty e)
  | EmptyString => "0"
  end.

(** [String(n)] on an integer number: the decimal numeral below 10^21, the
    exponent form of the shortest identifying decimal from there on. *)
Definition numberToString (n : Z) : string :=
  if (Z.abs n <? 10 ^ 21)%Z then pretty n
  else
    let d := nearestDouble (Z.abs n) in
    (if (n <? 0)%Z then "-" else "")
    +:+ (if (2 ^ 1024 <=? d)%Z then "Infinity"
         else exponential (shortestFrom d (map Z.of_nat (seq 1 17)))).

(** [String(p)] on a primitive. *)
Definition String (p : Primitive) : string :=
  match p with
  | PUndefined => "undefined"
  | PNull => "null"
  | PBoolean true => "true"
  | PBoolean false => "false"
  | PNumber n => numberToString n
  | PString s => s
  end.

(** [Array.prototype.join] on an array of strings. *)
Fixpoint join (sep : string) (l : list string) : string :=
  match l with
  | [] => ""
  | [x] => x
  | x :: rest => x +:+ sep +:+ join sep rest
  end.

(** [String.prototype.includes]. *)
Fixpoint includes (text needle : string) : bool :=
  String.prefix needle text ||
  match text with
  | EmptyString => false
  | String.String _ rest => includes rest needle
  end.

End Js.

(* ================================================================== *)
(** ** Protocol data *)
(* ================================================================== *)

(** [{ type: "text", text }] *)
Inductive ContentBlock : Type :=
| Text (text : string).

(** The object a tool call answers with. [isError] is an optional property:
    [None] is an object without it. *)
Record ToolResult : Type := mkToolResult {
  content : list ContentBlock;
  isError : option bool
}.

(** The argument of [elicitInput]. *)
Record ElicitParams : Type := mkElicitParams {
  message : string;
  requestedSchema : JsValue
}.

(** The Zod builders the source uses, as data: [z.enum([...])],
    [z.object({...})] and [.describe(...)]. *)
Inductive ZodType : Type :=
| ZodEnum (values : list string)
| ZodObject (shape : list (string * ZodType))
| ZodDescribe (inner : ZodType) (description : string).

(** A schema put into a response is either a Zod schema instance or a plain
    JSON-schema object. *)
Inductive SchemaValue : Type :=
| ZodSchema (z : ZodType)
| JsonSchema (j : JsValue).

Record ToolDescriptor : Type := mkToolDescriptor {
  name : string;
  description : string;
  inputSchema : SchemaValue
}.

(* ================================================================== *)
(** ** Programs: return, throw, elicit, log *)
(* ================================================================== *)

Inductive Prog (A : Type) : Type :=
| Ret (a : A)
| Throw (e : Thrown)
| Elicit (params : ElicitParams) (k : Settled -> Prog A)
| ConsoleError (label : string) (e : Thrown) (k : Prog A).

Arguments Ret {A} a.
Arguments Throw {A} e.
Arguments Elicit {A} params k.
Arguments ConsoleError {A} label e k.

Fixpoint bind {A B : Type} (m : Prog A) (f : A -> Prog B) : Prog B :=
  match m with
  | Ret a => f a
  | Throw e => Throw e
  | Elicit params k => Elicit params (fun s => bind (k s) f)
  | ConsoleError label e k => ConsoleError label e (bind k f)
  end.

#[global] Instance Prog_ret : MRet Prog := @Ret.
#[global] Instance Prog_bind : MBind Prog := fun A B f m => bind m f.

(** [try { m } catch (error) { h error }] *)
Fixpoint try_catch {A : Type} (m : Prog A) (h : Thrown -> Prog A) : Prog A :=
  match m with
  | Ret a => Ret a
  | Throw e => h e
  | Elicit params k => Elicit params (fun s => try_catch (k s) h)
  | ConsoleError label e k => ConsoleError label e (try_catch k h)
  end.

(** [await p]: a fulfilled promise gives its value, a rejected one throws. *)
Definition await (s : Settled) : Prog JsValue :=
  match s with
  | Fulfilled v => Ret v
  | Rejected e => Throw e
  end.

(** What a run leaves behind, in order. *)
Inductive Event : Type :=
| EvElicit (params : ElicitParams) (answer : Settled)
| EvConsoleError (label : string) (e : Thrown).

Inductive Outcome (A : Type) : Type :=
| Returned (a : A)
| Threw (e : Thrown).

Arguments Returned {A} a.
Arguments Threw {A} e.

(** The elicitation channel: what the awaited call
    [this.server.elicitInput(params)] settles to, given what has happened so
    far and the request. *)
Definition Channel : Type := list Event -> ElicitParams -> Settled.

Fixpoint run {A : Type} (chan : Channel) (log : list Event) (m : Prog A)
  : Outcome A * list Event :=
  match m with
  | Ret a => (Returned a, log)
  | Throw e => (Threw e, log)
  | Elicit params k =>
      let answer := chan log params in
      run chan (log ++ [EvElicit params answer]) (k answer)
  | ConsoleError label e k => run chan (log ++ [EvConsoleError label e]) k
  end.

Definition is_elicit (ev : Event) : bool :=
  match ev with
  | EvElicit _ _ => true
  | EvConsoleError _ _ => false
  end.

(** Number of elicitation requests in a log. *)
Definition elicitations (log : list Event) : nat :=
  length (filter (fun ev => is_elicit ev = true) log).

(** Every path of the program asks the channel at most [n] times. *)
Fixpoint elicits_at_most {A : Type} (n : nat) (m : Prog A) : Prop :=
  match m with
  | Ret _ | Throw _ => True
  | Elicit _ k =>
      match n with
      | O => False
      | S n' => forall s, elicits_at_most n' (k s)
      end
  | ConsoleError _ _ k => elicits_at_most n k
  end.

(** The program has finished: nothing is left to do but hand over a value
    or an exception. *)
Definition terminal {A : Type} (m : Prog A) : Prop :=
  match m with
  | Ret _ | Throw _ => True
  | _ => False
  end.

(** [v.k], read where the code reads it: a [TypeError] on [undefined] and
    [null]; on an object the own property or [undefined]. The names read
    ([flavour], [action], [content]) are not properties of arrays or of
    boxed primitives. *)
Definition get (v : JsValue) (k : string) : Prog JsValue :=
  match v with
  | JsPrim PUndefined =>
      Throw (ErrorInstance
        ("Cannot read properties of undefined (reading '" +:+ k +:+ "')"))
  | JsPrim PNull =>
      Throw (ErrorInstance
        ("Cannot read properties of null (reading '" +:+ k +:+ "')"))
  | JsObject props => Ret (default JsUndefined (props !! k))
  | _ => Ret JsUndefined
  end.

(** [v?.k] *)
Definition get_optional (v : JsValue) (k : string) : Prog JsValue :=
  match v with
  | JsPrim PUndefined | JsPrim PNull => Ret JsUndefined
  | _ => get v k
  end.

(* ================================================================== *)
(** ** The tool *)
(* ================================================================== *)

(** The optional second parameter of [execute]. *)
Definition ElicitFn : Type := ElicitParams -> Prog JsValue.

(** What the server uses of the object in [this.tool]: its four methods. *)
Record Tool : Type := mkTool {
  toolName : string;
  toolDescription : string;
  toolInputSchema : ZodType;
  toolExecute : JsValue -> option ElicitFn -> Prog ToolResult
}.

Module IceCreamToppingRecommenderTool.

Definition getName : string := "ice_cream_topping_recommender".

Definition getDescription : string :=
  "Recommends the best ice cream toppings based on your selected flavour.".

Definition getInputSchema : ZodType :=
  ZodObject
    [("flavour",
      ZodDescribe (ZodEnum ["vanilla"; "strawberry"; "chocolate"])
        "Choose a flavour: vanilla, strawberry, or chocolate.")].

(** The object literal [jsonSchema] of [execute]. *)
Definition jsonSchema : JsValue :=
  JsObject
    (<["type" := JsString "object"]>
     (<["properties" :=
          JsObject
            {["flavour" :=
                JsObject
                  (<["type" := JsString "string"]>
                   (<["enum" := JsArray [JsString "vanilla";
                                         JsString "strawberry";
                                         JsString "chocolate"]]>
                    {["description" :=
                        JsString
                          "Choose a flavour: vanilla, strawberry, or chocolate."]}))]}]>
      {["required" := JsArray [JsString "flavour"]]})).

Definition elicitParams : ElicitParams :=
  {| message :=
       "Which ice cream flavour do you want toppings for? (vanilla, strawberry, or chocolate)";
     requestedSchema := jsonSchema |}.

(** The early return of the elicitation branch. *)
Definition cancelledResult : ToolResult :=
  {| content := [Text "‚ùå Cancelled by user or no flavour selected."];
     isError := Some true |}.

(** The return of the [default] case. *)
Definition unknownFlavourResult : ToolResult :=
  {| content := [Text "‚ùå Unknown flavour."];
     isError := Some true |}.

(** The value of [result && result.action === "accept" && result.content?.flavour]. *)
Definition acceptCondition (result : JsValue) : Prog JsValue :=
  if negb (Js.truthy result) then Ret result
  else
    action ← get result "action";
    if negb (Js.strict_eq_string action "accept") then Ret (JsBool false)
    else
      content ← get result "content";
      get_optional content "flavour".

(** Lines 56 to 85: the flavour to look up ([inr]), or the result of the
    early return ([inl]). *)
Definition resolveFlavour (args : JsValue) (elicitInput : option ElicitFn)
  : Prog (ToolResult + JsValue) :=
  flavour ← get (Js.or args (JsObject ∅)) "flavour";
  match elicitInput with
  | Some elicit =>
      if negb (Js.truthy flavour) then
        result ← elicit elicitParams;
        cond ← acceptCondition result;
        if Js.truthy cond then
          content ← get result "content";
          flavour' ← get content "flavour";
          Ret (inr flavour')
        else Ret (inl cancelledResult)
      else Ret (inr flavour)
  | None => Ret (inr flavour)
  end.

(** The [case] labels of the [switch], in order. *)
Definition toppingsFor (flavour : string) : option (list string) :=
  if String.eqb flavour "vanilla" then
    Some ["caramel sauce"; "rainbow sprinkles"; "crushed cookies"]
  else if String.eqb flavour "strawberry" then
    Some ["white chocolate chips"; "fresh berries"; "whipped cream"]
  else if String.eqb flavour "chocolate" then
    Some ["chopped nuts"; "marshmallows"; "hot fudge"]
  else None.

(** The template literal of line 109. *)
Definition recommendationText (flavour : string) (toppings : list string)
  : string :=
  "üç¶ For " +:+ flavour +:+ " ice cream, the best toppings are: "
  +:+ Js.join ", " toppings +:+ ".".

(** Lines 86 to 112: the [switch] and the final return. [switch] compares
    with [===], so only a string can reach a [case]. The object returned
    after the [switch] has no [isError] property. *)
Definition recommend (flavour : JsValue) : Prog ToolResult :=
  match flavour with
  | JsPrim (PString s) =>
      match toppingsFor s with
      | Some toppings =>
          Ret {| content := [Text (recommendationText s toppings)];
                 isError := None |}
      | None => Ret unknownFlavourResult
      end
  | _ => Ret unknownFlavourResult
  end.

(** [execute] with its second half left open. *)
Definition executeWith (lookup : JsValue -> Prog ToolResult)
    (args : JsValue) (elicitInput : option ElicitFn) : Prog ToolResult :=
  r ← resolveFlavour args elicitInput;
  match r with
  | inl early => Ret early
  | inr flavour => lookup flavour
  end.

Definition execute (args : JsValue) (elicitInput : option ElicitFn)
  : Prog ToolResult :=
  executeWith recommend args elicitInput.

End IceCreamToppingRecommenderTool.

(** [new IceCreamToppingRecommenderTool()] *)
Definition theTool : Tool :=
  {| toolName := IceCreamToppingRecommenderTool.getName;
     toolDescription := IceCreamToppingRecommenderTool.getDescription;
     toolInputSchema := IceCreamToppingRecommenderTool.getInputSchema;
     toolExecute := IceCreamToppingRecommenderTool.execute |}.

(* ================================================================== *)
(** ** The server *)
(* ================================================================== *)

(** [request.params] of a call-tool request; the SDK's request schema makes
    [name] a string. *)
Record CallToolParams : Type := mkCallToolParams {
  params_name : string;
  params_arguments : JsValue
}.

(** [{ tools: [...] }] *)
Record ListToolsResult : Type := mkListToolsResult {
  tools : list ToolDescriptor
}.

Inductive Request : Type :=
| ListToolsRequest
| CallToolRequest (params : CallToolParams).

Inductive Response : Type :=
| ListToolsResponse (r : ListToolsResult)
| CallToolResponse (r : ToolResult).

Module IceCreamMcpServer.

(** The fields of the class the handlers read. *)
Record t : Type := mk { tool : Tool }.

(** The constructor. *)
Definition new : t := {| tool := theTool |}.

(** [this.server.elicitInput(params)], awaited: one request on the channel. *)
Definition elicitInput : ElicitFn := fun params => Elicit params await.

(** The handler registered for [ListToolsRequestSchema]. *)
Definition listToolsHandler (this : t) : Prog ListToolsResult :=
  Ret {| tools :=
           [ {| name := toolName (tool this);
                description := toolDescription (tool this);
                inputSchema := ZodSchema (toolInputSchema (tool this)) |} ] |}.

(** [error instanceof Error ? error.message : String(error)] *)
Definition errorMessageOf (error : Thrown) : string :=
  match error with
  | ErrorInstance message => message
  | NonError p => Js.String p
  | NonErrorObject rendering => rendering
  end.

(** The template literal of line 187. *)
Definition errorText (toolName errorMessage : string) : string :=
  "‚ùå Error in " +:+ toolName +:+ ": " +:+ errorMessage.

Definition handleToolError (error : Thrown) (toolName : string)
  : Prog ToolResult :=
  let errorMessage := errorMessageOf error in
  ConsoleError ("Tool " +:+ toolName +:+ " failed:") error
    (Ret {| content := [Text (errorText toolName errorMessage)];
            isError := Some true |}).

(** The handler registered for [CallToolRequestSchema]. *)
Definition callToolHandler (this : t) (params : CallToolParams)
  : Prog ToolResult :=
  try_catch
    (let name := params_name params in
     let args := params_arguments params in
     if negb (String.eqb name (toolName (tool this))) then
       Throw (ErrorInstance ("Unknown tool: " +:+ name))
     else toolExecute (tool this) args (Some elicitInput))
    (fun error => handleToolError error (params_name params)).

(** What [setupHandlers] registers, as one function: a request goes to the
    handler registered for its schema. *)
Definition setupHandlers (this : t) (req : Request) : Prog Response :=
  match req with
  | ListToolsRequest => r ← listToolsHandler this; Ret (ListToolsResponse r)
  | CallToolRequest params =>
      r ← callToolHandler this params; Ret (CallToolResponse r)
  end.

(** A session: the requests of a connection, answered one after the other. *)
Fixpoint serve (this : t) (reqs : list Request) : Prog (list Response) :=
  match reqs with
  | [] => Ret []
  | req :: rest =>
      r ← setupHandlers this req;
      rs ← serve this rest;
      Ret (r :: rs)
  end.

End IceCreamMcpServer.

(* ================================================================== *)
(** ** Vocabulary of the specification *)
(* ================================================================== *)

(** The enumerated domain. *)
Definition flavours : list string := ["vanilla"; "strawberry"; "chocolate"].

(** [v] is one of the enumerated values (exact match, as [===] does). *)
Definition isDeclaredFlavour (v : JsValue) : bool :=
  existsb (Js.strict_eq_string v) flavours.

(** The answer [{action: "accept", content}], the one that line 75 tests
    for. *)
Definition Accepted (content : JsValue) : JsValue :=
  JsObject (<["action" := JsString "accept"]> {["content" := content]}).

(** Modelled from the spec: the answer [{action: "decline"}] of the
    elicitation channel (section 6); the source only tests for ["accept"]. *)
Definition Declined : JsValue := JsObject {["action" := JsString "decline"]}.

(** Modelled from the spec: the answer [{action: "cancel"}] of the
    elicitation channel (section 6); the source only tests for ["accept"]. *)
Definition Cancelled : JsValue := JsObject {["action" := JsString "cancel"]}.

(** [{flavour: v}] and [{}] *)
Definition withFlavour (v : JsValue) : JsValue := JsObject {["flavour" := v]}.

Definition noArguments : JsValue := JsObject ∅.

(** The texts of a result. *)
Definition texts (r : ToolResult) : list string :=
  map (fun b => match b with Text t => t end) (content r).

Definition isStringValue (v : JsValue) : bool :=
  match v with
  | JsPrim (PString _) => true
  | _ => false
  end.

(** Modelled from the spec: one entry of [properties],
    [{type, enum?, description?}]; an [enum], if present, is a non-empty
    list of strings (section 3). *)
Definition propertyShape (v : JsValue) : bool :=
  match v with
  | JsObject m =>
      match m !! "type" with
      | Some ty => isStringValue ty
      | None => false
      end
      && match m !! "enum" with
         | None => true
         | Some (JsArray items) =>
             negb (bool_decide (items = [])) && forallb isStringValue items
         | Some _ => false
         end
      && match m !! "description" with
         | None => true
         | Some d => isStringValue d
         end
  | _ => false
  end.

(** Modelled from the spec: the wire shape of a schema (section 6),
    [{type: "object", properties: {field: {type, enum?, description?}},
    required: [field, ...]}]. *)
Definition wireShape (v : JsValue) : bool :=
  match v with
  | JsObject m =>
      match m !! "type", m !! "properties", m !! "required" with
      | Some ty, Some (JsObject ps), Some (JsArray req) =>
          Js.strict_eq_string ty "object"
          && forallb (fun kv => propertyShape kv.2) (map_to_list ps)
          && forallb (fun r =>
                        match r with
                        | JsPrim (PString f) => bool_decide (is_Some (ps !! f))
                        | _ => false
                        end) req
      | _, _, _ => false
      end
  | _ => false
  end.

(** A Zod schema instance is an object of a class of the Zod library and
    has none of [type], [properties], [required]; only a plain object can
    have the wire shape. *)
Definition conformsToWireShape (s : SchemaValue) : bool :=
  match s with
  | JsonSchema j => wireShape j
  | ZodSchema _ => false
  end.

(** The [enum] of a field of a wire-shape schema. *)
Definition enumOf (schema : JsValue) (field : string) : option (list JsValue) :=
  match schema with
  | JsObject m =>
      match m !! "properties" with
      | Some (JsObject ps) =>
          match ps !! field with
          | Some (JsObject f) =>
              match f !! "enum" with
              | Some (JsArray items) => Some items
              | _ => None
              end
          | _ => None
          end
      | _ => None
      end
  | _ => None
  end.

(** The value that [let { flavour } = args || {}] binds. *)
Definition flavourOf (args : JsValue) : JsValue :=
  match args with
  | JsObject props => default JsUndefined (props !! "flavour")
  | _ => JsUndefined
  end.

(** The flavour an elicitation result carries when the test of line 75
    succeeds: [action] is ["accept"] and [content.flavour] is truthy. *)
Definition acceptedFlavour (result : JsValue) : option JsValue :=
  match result with
  | JsObject props =>
      if Js.strict_eq_string (default JsUndefined (props !! "action")) "accept"
      then
        let v := flavourOf (default JsUndefined (props !! "content")) in
        if Js.truthy v then Some v else None
      else None
  | _ => None
  end.

(** What [execute] does with the settled answer of its elicitation. *)
Definition afterElicit (lookup : JsValue -> Prog ToolResult) (s : Settled)
  : Prog ToolResult :=
  match s with
  | Rejected e => Throw e
  | Fulfilled result =>
      match acceptedFlavour result with
      | Some v => lookup v
      | None => Ret IceCreamToppingRecommenderTool.cancelledResult
      end
  end.

(** The second argument of [execute]: the server's channel, or nothing. *)
Definition channelArg (available : bool) : option ElicitFn :=
  if available then Some IceCreamMcpServer.elicitInput else None.

(** The three flavours with their toppings, in the order of the [case]
    labels and of the array literals. *)
Definition declaredToppings : list (string * list string) :=
  [("vanilla", ["caramel sauce"; "rainbow sprinkles"; "crushed cookies"]);
   ("strawberry", ["white chocolate chips"; "fresh berries"; "whipped cream"]);
   ("chocolate", ["chopped nuts"; "marshmallows"; "hot fudge"])].

(** A channel that gives the same answer to every request. *)
Definition always (answer : Settled) : Channel := fun _ _ => answer.

(** An elicitation answer that is no acceptance with a content object: not
    an object at all, or an object whose [action] is not ["accept"], or one
    whose [content] is not an object. *)
Definition notAnAcceptance (reply : JsValue) : bool :=
  match reply with
  | JsObject props =>
      negb (Js.strict_eq_string (default JsUndefined (props !! "action"))
              "accept")
      || match default JsUndefined (props !! "content") with
         | JsObject _ => false
         | _ => true
         end
  | _ => true
  end.

(** The values of [z.enum([...])], through any [.describe(...)]. *)
Fixpoint zodEnumValues (z : ZodType) : option (list string) :=
  match z with
  | ZodEnum values => Some values
  | ZodDescribe inner _ => zodEnumValues inner
  | ZodObject _ => None
  end.

(** The field of a shape, by name. *)
Fixpoint shapeField (shape : list (string * ZodType)) (field : string)
  : option ZodType :=
  match shape with
  | [] => None
  | (k, z) :: rest => if String.eqb k field then Some z else shapeField rest field
  end.

(** The enumerated values that a Zod object schema declares for a field. *)
Definition zodFieldEnum (schema : ZodType) (field : string)
  : option (list string) :=
  match schema with
  | ZodObject shape =>
      match shapeField shape field with
      | Some z => zodEnumValues z
      | None => None
      end
  | _ => None
  end.

Definition isCallTool (req : Request) : bool :=
  match req with
  | CallToolRequest _ => true
  | ListToolsRequest => false
  end.

(** Number of call-tool requests of a session. *)
Definition callToolRequests (reqs : list Request) : nat :=
  length (List.filter isCallTool reqs).

(** A call-tool request for the registered tool. *)
Definition registeredCall (args : JsValue) : CallToolParams :=
  {| params_name := IceCreamToppingRecommenderTool.getName;
     params_arguments := args |}.

(* ================================================================== *)
(** ** The process: start-up and global error handlers *)
(* ================================================================== *)

(** An argument of a [console.error] call of the process-level code. *)
Inductive ConsoleArg : Type :=
| CText (s : string)
| CError (e : Thrown)
| CPromise.

(** Programs of the process: besides returning and throwing they end the
    process ([process.exit]), write a line, construct the transport and
    connect the server to it. The last two are calls into the SDK; they
    answer with [None] on success and with what they throw or reject with
    otherwise. *)
Inductive Proc (A : Type) : Type :=
| PRet (a : A)
| PThrow (e : Thrown)
| PExit (code : Z)
| PConsoleError (args : list ConsoleArg) (k : Proc A)
| PNewTransport (k : option Thrown -> Proc A)
| PConnect (k : option Thrown -> Proc A).

Arguments PRet {A} a.
Arguments PThrow {A} e.
Arguments PExit {A} code.
Arguments PConsoleError {A} args k.
Arguments PNewTransport {A} k.
Arguments PConnect {A} k.

Fixpoint pbind {A B : Type} (m : Proc A) (f : A -> Proc B) : Proc B :=
  match m with
  | PRet a => f a
  | PThrow e => PThrow e
  | PExit code => PExit code
  | PConsoleError args k => PConsoleError args (pbind k f)
  | PNewTransport k => PNewTransport (fun o => pbind (k o) f)
  | PConnect k => PConnect (fun o => pbind (k o) f)
  end.

(** [try ... catch] and [promise.catch(...)]: an exit is not caught. *)
Fixpoint pcatch {A : Type} (m : Proc A) (h : Thrown -> Proc A) : Proc A :=
  match m with
  | PRet a => PRet a
  | PThrow e => h e
  | PExit code => PExit code
  | PConsoleError args k => PConsoleError args (pcatch k h)
  | PNewTransport k => PNewTransport (fun o => pcatch (k o) h)
  | PConnect k => PConnect (fun o => pcatch (k o) h)
  end.

(** What the SDK does at start-up: whether the constructor of the transport
    throws, and whether the connection is rejected. *)
Record StartupEnv : Type := mkStartupEnv {
  transportFails : option Thrown;
  connectFails : option Thrown
}.

Inductive ProcOutcome (A : Type) : Type :=
| PReturned (a : A)
| PThrew (e : Thrown)
| PExited (code : Z).

Arguments PReturned {A} a.
Arguments PThrew {A} e.
Arguments PExited {A} code.

(** A run of a process program: its outcome and the lines written. *)
Fixpoint prun {A : Type} (env : StartupEnv) (lines : list (list ConsoleArg))
    (m : Proc A) : ProcOutcome A * list (list ConsoleArg) :=
  match m with
  | PRet a => (PReturned a, lines)
  | PThrow e => (PThrew e, lines)
  | PExit code => (PExited code, lines)
  | PConsoleError args k => prun env (lines ++ [args]) k
  | PNewTransport k => prun env lines (k (transportFails env))
  | PConnect k => prun env lines (k (connectFails env))
  end.

(** What reaches the handlers that [setupErrorHandling] installs. *)
Inductive ProcessSignal : Type :=
| ServerError (error : Thrown)
| UnhandledRejection (reason : Thrown)
| UncaughtException (error : Thrown).

Module Process.

(** The three handlers of [setupErrorHandling], by the signal they are
    installed for: [server.onerror], ["unhandledRejection"],
    ["uncaughtException"]. *)
Definition setupErrorHandling (signal : ProcessSignal) : Proc unit :=
  match signal with
  | ServerError error =>
      PConsoleError [CText "Server error:"; CError error] (PRet tt)
  | UnhandledRejection reason =>
      PConsoleError
        [CText "Unhandled Rejection at:"; CPromise; CText "reason:";
         CError reason]
        (PRet tt)
  | UncaughtException error =>
      PConsoleError [CText "Uncaught Exception:"; CError error] (PExit 1)
  end.

(** [IceCreamMcpServer.start] *)
Definition start (this : IceCreamMcpServer.t) : Proc unit :=
  PNewTransport (fun thrown =>
    match thrown with
    | Some e => PThrow e
    | None =>
        pcatch
          (PConnect (fun rejected =>
             match rejected with
             | Some e => PThrow e
             | None =>
                 PConsoleError [CText "‚úÖ Ice Cream MCP Server started successfully"]
                   (PConsoleError
                      [CText ("üîß Available tool: "
                              +:+ toolName (IceCreamMcpServer.tool this))]
                      (PRet tt))
             end))
          (fun error =>
             PConsoleError [CText "‚ùå Failed to start server:"; CError error] (PExit 1))
    end).

(** [src/index.ts]: the server is constructed and started; a rejection of
    [start] is written and ends the process. *)
Definition main : Proc unit :=
  pcatch (start IceCreamMcpServer.new)
    (fun error =>
       PConsoleError [CText "Fatal error starting server:"; CError error]
         (PExit 1)).

(** The signals of a running process, handled one after the other. *)
Fixpoint supervise (signals : list ProcessSignal) : Proc unit :=
  match signals with
  | [] => PRet tt
  | signal :: rest =>
      pbind (setupErrorHandling signal) (fun _ => supervise rest)
  end.

End Process.

Definition isUncaughtException (signal : ProcessSignal) : bool :=
  match signal with
  | UncaughtException _ => true
  | _ => false
  end.

(** The text arguments of a written line. *)
Definition lineTexts (line : list ConsoleArg) : list string :=
  omap (fun a => match a with CText s => Some s | _ => None end) line.

(** The errors among the arguments of a written line. *)
Definition lineErrors (line : list ConsoleArg) : list Thrown :=
  omap (fun a => match a with CError e => Some e | _ => None end) line.

(* ================================================================== *)
(** * Properties *)
(* ================================================================== *)

(** ** Running programs *)

Lemma mbind_bind {A B : Type} (m : Prog A) (f : A -> Prog B) :
  (m ≫= f) = bind m f.
Proof. reflexivity. Qed.

Lemma run_bind {A B : Type} (chan : Channel) (m : Prog A) (f : A -> Prog B) :
  forall log,
    run chan log (bind m f) =
    match run chan log m with
    | (Returned a, log') => run chan log' (f a)
    | (Threw e, log') => (Threw e, log')
    end.
Proof.
  induction m as [a | e | params k IH | label e k IH]; intros log; simpl.
  - reflexivity.
  - reflexivity.
  - apply IH.
  - apply IH.
Qed.

Lemma run_try_catch {A : Type} (chan : Channel) (m : Prog A)
    (h : Thrown -> Prog A) :
  forall log,
    run chan log (try_catch m h) =
    match run chan log m with
    | (Returned a, log') => (Returned a, log')
    | (Threw e, log') => run chan log' (h e)
    end.
Proof.
  induction m as [a | e | params k IH | label e k IH]; intros log; simpl.
  - reflexivity.
  - reflexivity.
  - apply IH.
  - apply IH.
Qed.

Lemma elicitations_app (l1 l2 : list Event) :
  elicitations (l1 ++ l2) = elicitations l1 + elicitations l2.
Proof. unfold elicitations. by rewrite filter_app, length_app. Qed.

Lemma elicitations_cons_elicit params answer (l : list Event) :
  elicitations (EvElicit params answer :: l) = S (elicitations l).
Proof.
  unfold elicitations. rewrite filter_cons.
  destruct (decide (is_elicit (EvElicit params answer) = true)) as [_ | Hn].
  - reflexivity.
  - exfalso. by apply Hn.
Qed.

Lemma elicitations_cons_console label e (l : list Event) :
  elicitations (EvConsoleError label e :: l) = elicitations l.
Proof.
  unfold elicitations. rewrite filter_cons.
  destruct (decide (is_elicit (EvConsoleError label e) = true)) as [H | _].
  - discriminate H.
  - reflexivity.
Qed.

(** A run only appends to the log. *)
Lemma run_extends {A : Type} (chan : Channel) (m : Prog A) :
  forall log, exists new, snd (run chan log m) = log ++ new.
Proof.
  induction m as [a | e | params k IH | label e k IH]; intros log; simpl.
  - exists []. by rewrite app_nil_r.
  - exists []. by rewrite app_nil_r.
  - destruct (IH (chan log params) (log ++ [EvElicit params (chan log params)]))
      as [new Hnew].
    exists (EvElicit params (chan log params) :: new).
    rewrite Hnew. by rewrite <- app_assoc.
  - destruct (IH (log ++ [EvConsoleError label e])) as [new Hnew].
    exists (EvConsoleError label e :: new).
    rewrite Hnew. by rewrite <- app_assoc.
Qed.

(** A bound on the paths of a program bounds the requests of every run. *)
Lemma elicits_at_most_run {A : Type} (chan : Channel) (m : Prog A) :
  forall n log,
    elicits_at_most n m ->
    exists new, snd (run chan log m) = log ++ new /\ elicitations new <= n.
Proof.
  induction m as [a | e | params k IH | label e k IH]; intros n log Hn; simpl.
  - exists []. split; [by rewrite app_nil_r | apply Nat.le_0_l].
  - exists []. split; [by rewrite app_nil_r | apply Nat.le_0_l].
  - destruct n as [| n']; [destruct Hn |].
    simpl in Hn.
    destruct (IH (chan log params) n'
                (log ++ [EvElicit params (chan log params)]) (Hn _))
      as (new & Hnew & Hle).
    exists (EvElicit params (chan log params) :: new). split.
    + rewrite Hnew. by rewrite <- app_assoc.
    + rewrite elicitations_cons_elicit. lia.
  - simpl in Hn.
    destruct (IH n (log ++ [EvConsoleError label e]) Hn) as (new & Hnew & Hle).
    exists (EvConsoleError label e :: new). split.
    + rewrite Hnew. by rewrite <- app_assoc.
    + by rewrite elicitations_cons_console.
Qed.

Lemma terminal_elicits_at_most {A : Type} (m : Prog A) (n : nat) :
  terminal m -> elicits_at_most n m.
Proof. destruct m; simpl; intros H; try exact I; destruct H. Qed.

(** ** The tool, step by step *)

Lemma get_args_flavour (args : JsValue) :
  get (Js.or args (JsObject ∅)) "flavour" = Ret (flavourOf args).
Proof.
  destruct args as [[| | [|] | n | s] | items | props]; unfold Js.or; simpl;
    try reflexivity.
  - destruct (n =? 0)%Z; reflexivity.
  - destruct (String.eqb s ""); reflexivity.
Qed.

(** The test of line 75 and the reads after it never throw: each read is
    guarded by the test before it. *)
Lemma elicit_answer_handled (result : JsValue) :
  (cond ← IceCreamToppingRecommenderTool.acceptCondition result;
   if Js.truthy cond then
     content ← get result "content";
     flavour' ← get content "flavour";
     Ret (inr flavour')
   else Ret (inl IceCreamToppingRecommenderTool.cancelledResult))
  = Ret (match acceptedFlavour result with
         | Some v => inr v
         | None => inl IceCreamToppingRecommenderTool.cancelledResult
         end).
Proof.
  unfold IceCreamToppingRecommenderTool.acceptCondition.
  destruct result as [[| | [|] | n | s] | items | props]; simpl;
    try reflexivity.
  - destruct (n =? 0)%Z eqn:Hn; simpl; rewrite ?Hn; reflexivity.
  - destruct (String.eqb s "") eqn:Hs; simpl; rewrite ?Hs; reflexivity.
  - destruct (Js.strict_eq_string (default JsUndefined (props !! "action"))
                "accept"); simpl; [| reflexivity].
    destruct (default JsUndefined (props !! "content"))
      as [[| | b | n | s] | items | c]; simpl; try reflexivity.
    destruct (Js.truthy (default JsUndefined (c !! "flavour"))); reflexivity.
Qed.

(** Without a channel the flavour of [args] goes straight to the lookup. *)
Lemma executeWith_no_channel lookup (args : JsValue) :
  IceCreamToppingRecommenderTool.executeWith lookup args None
  = lookup (flavourOf args).
Proof.
  unfold IceCreamToppingRecommenderTool.executeWith,
    IceCreamToppingRecommenderTool.resolveFlavour.
  rewrite get_args_flavour. reflexivity.
Qed.

(** A truthy flavour goes straight to the lookup, channel or not. *)
Lemma executeWith_truthy lookup (args : JsValue) (e : option ElicitFn) :
  Js.truthy (flavourOf args) = true ->
  IceCreamToppingRecommenderTool.executeWith lookup args e
  = lookup (flavourOf args).
Proof.
  intros Ht.
  unfold IceCreamToppingRecommenderTool.executeWith,
    IceCreamToppingRecommenderTool.resolveFlavour.
  rewrite get_args_flavour. destruct e as [elicit |]; simpl.
  - rewrite Ht. reflexivity.
  - reflexivity.
Qed.

(** A falsy flavour with the channel: one request, then [afterElicit]. *)
Lemma executeWith_elicits lookup (args : JsValue) :
  Js.truthy (flavourOf args) = false ->
  exists k,
    IceCreamToppingRecommenderTool.executeWith lookup args
      (Some IceCreamMcpServer.elicitInput)
    = Elicit IceCreamToppingRecommenderTool.elicitParams k
    /\ forall s, k s = afterElicit lookup s.
Proof.
  intros Hf.
  unfold IceCreamToppingRecommenderTool.executeWith,
    IceCreamToppingRecommenderTool.resolveFlavour.
  rewrite get_args_flavour. simpl. rewrite Hf. simpl.
  eexists. split; [reflexivity |].
  intros [result | e]; simpl; [| reflexivity].
  rewrite elicit_answer_handled. simpl.
  destruct (acceptedFlavour result); reflexivity.
Qed.

Lemma recommend_terminal (flavour : JsValue) :
  terminal (IceCreamToppingRecommenderTool.recommend flavour).
Proof.
  unfold IceCreamToppingRecommenderTool.recommend.
  destruct flavour as [[| | b | n | s] | items | props]; simpl; try exact I.
  destruct (IceCreamToppingRecommenderTool.toppingsFor s); exact I.
Qed.

Lemma afterElicit_recommend_terminal (s : Settled) :
  terminal (afterElicit IceCreamToppingRecommenderTool.recommend s).
Proof.
  destruct s as [result | e]; simpl; [| exact I].
  destruct (acceptedFlavour result); [apply recommend_terminal | exact I].
Qed.

(** A value that is no declared flavour falls to the [default] case. *)
Lemma recommend_unknown (v : JsValue) :
  isDeclaredFlavour v = false ->
  IceCreamToppingRecommenderTool.recommend v
  = Ret IceCreamToppingRecommenderTool.unknownFlavourResult.
Proof.
  intros Hout. unfold IceCreamToppingRecommenderTool.recommend.
  destruct v as [[| | b | n | s] | items | props]; try reflexivity.
  unfold isDeclaredFlavour, flavours in Hout. simpl in Hout.
  unfold IceCreamToppingRecommenderTool.toppingsFor.
  destruct (String.eqb s "vanilla"); [discriminate Hout |].
  destruct (String.eqb s "strawberry"); [discriminate Hout |].
  destruct (String.eqb s "chocolate"); [discriminate Hout |].
  reflexivity.
Qed.

(** A falsy value is no declared flavour. *)
Lemma falsy_not_declared (v : JsValue) :
  Js.truthy v = false -> isDeclaredFlavour v = false.
Proof.
  intros Hv.
  destruct v as [[| | b | n | s] | items | props]; try reflexivity.
  simpl in Hv. apply negb_false_iff, String.eqb_eq in Hv. subst s.
  reflexivity.
Qed.

(** With the channel and no usable flavour in [args], a run is the request
    followed by the handling of its answer. *)
Lemma run_execute_elicit lookup (args : JsValue) (chan : Channel)
    (log : list Event) :
  Js.truthy (flavourOf args) = false ->
  run chan log
    (IceCreamToppingRecommenderTool.executeWith lookup args
       (Some IceCreamMcpServer.elicitInput))
  = run chan
      (log ++ [EvElicit IceCreamToppingRecommenderTool.elicitParams
                 (chan log IceCreamToppingRecommenderTool.elicitParams)])
      (afterElicit lookup
         (chan log IceCreamToppingRecommenderTool.elicitParams)).
Proof.
  intros Hf. destruct (executeWith_elicits lookup args Hf) as (k & -> & Hk).
  simpl. by rewrite Hk.
Qed.

Lemma flavourOf_withFlavour (v : JsValue) : flavourOf (withFlavour v) = v.
Proof. unfold flavourOf, withFlavour. by rewrite lookup_singleton_eq. Qed.

Lemma flavourOf_noArguments : flavourOf noArguments = JsUndefined.
Proof. reflexivity. Qed.

Lemma acceptedFlavour_Accepted (c : JsValue) :
  acceptedFlavour (Accepted c)
  = if Js.truthy (flavourOf c) then Some (flavourOf c) else None.
Proof.
  unfold acceptedFlavour, Accepted.
  rewrite lookup_insert_eq. simpl.
  rewrite lookup_insert_ne by discriminate.
  rewrite lookup_singleton_eq. reflexivity.
Qed.

Lemma acceptedFlavour_Declined : acceptedFlavour Declined = None.
Proof. reflexivity. Qed.

Lemma acceptedFlavour_Cancelled : acceptedFlavour Cancelled = None.
Proof. reflexivity. Qed.

(** ** Texts *)

Example join_three : Js.join ", " ["a"; "b"; "c"] = "a, b, c".
Proof. reflexivity. Qed.

Example String_of_number : Js.String (PNumber (-42)) = "-42".
Proof. reflexivity. Qed.

Example includes_inside : Js.includes "Unknown tool: x" "tool" = true.
Proof. reflexivity. Qed.

Example includes_outside : Js.includes "Unknown flavour." "mango" = false.
Proof. reflexivity. Qed.






(* ================================================================== *)
(** * The properties of the specification *)
(* ================================================================== *)

(** C1, as stated, fails at [{flavour: "vanilla"}]: the object returned on
    success does not have [isError] set to [false]. *)
Lemma execute_vanilla_isError_not_false :
  ~ exists r,
      IceCreamToppingRecommenderTool.execute
        (withFlavour (JsString "vanilla")) (channelArg true) = Ret r
      /\ isError r = Some false.
Proof.
  intros (r & Hr & He).
  unfold IceCreamToppingRecommenderTool.execute in Hr.
  rewrite executeWith_truthy in Hr by reflexivity.
  rewrite flavourOf_withFlavour in Hr.
  injection Hr as <-. discriminate He.
Qed.

(** C1 (amended): for each of the three declared flavours,
    [execute({flavour: f})] returns, with or without a channel, a result
    that has no [isError] property and whose content is one text block: the
    recommendation sentence for [f], which contains that flavour's three
    toppings, comma-joined, in their declared order. *)
Theorem execute_declared_flavour (f : string) (e : option ElicitFn) :
  In f flavours ->
  exists t1 t2 t3,
    In (f, [t1; t2; t3]) declaredToppings
    /\ IceCreamToppingRecommenderTool.execute (withFlavour (JsString f)) e
       = Ret {| content :=
                  [Text (IceCreamToppingRecommenderTool.recommendationText f
                           [t1; t2; t3])];
                isError := None |}
    /\ Js.includes
         (IceCreamToppingRecommenderTool.recommendationText f [t1; t2; t3])
         (t1 +:+ ", " +:+ t2 +:+ ", " +:+ t3) = true.
Proof.
  intros Hin. unfold IceCreamToppingRecommenderTool.execute.
  simpl in Hin. destruct Hin as [<- | [<- | [<- | []]]].
  - exists "caramel sauce", "rainbow sprinkles", "crushed cookies".
    split; [simpl; tauto |]. split; [| vm_compute; reflexivity].
    rewrite executeWith_truthy by reflexivity.
    by rewrite flavourOf_withFlavour.
  - exists "white chocolate chips", "fresh berries", "whipped cream".
    split; [simpl; tauto |]. split; [| vm_compute; reflexivity].
    rewrite executeWith_truthy by reflexivity.
    by rewrite flavourOf_withFlavour.
  - exists "chopped nuts", "marshmallows", "hot fudge".
    split; [simpl; tauto |]. split; [| vm_compute; reflexivity].
    rewrite executeWith_truthy by reflexivity.
    by rewrite flavourOf_withFlavour.
Qed.

(** The theorem at chocolate, without a channel. *)
Lemma execute_declared_flavour_witness :
  In "chocolate" flavours
  /\ exists t1 t2 t3,
       In ("chocolate", [t1; t2; t3]) declaredToppings
       /\ IceCreamToppingRecommenderTool.execute
            (withFlavour (JsString "chocolate")) None
          = Ret {| content :=
                     [Text (IceCreamToppingRecommenderTool.recommendationText
                              "chocolate" [t1; t2; t3])];
                   isError := None |}
       /\ Js.includes
            (IceCreamToppingRecommenderTool.recommendationText "chocolate"
               [t1; t2; t3])
            (t1 +:+ ", " +:+ t2 +:+ ", " +:+ t3) = true.
Proof.
  assert (H : In "chocolate" flavours) by (simpl; tauto).
  split; [exact H | exact (execute_declared_flavour "chocolate" None H)].
Defined.

(** C2: for every declared flavour [v], [execute({})] with a channel that
    answers Accepted with content [{flavour: v}] returns the very result
    that [execute({flavour: v})] returns when called directly (with any
    channel or none); the elicited run asks the channel once, the direct one
    not at all. *)
Theorem elicited_equals_direct (v : string) (chan : Channel)
    (log : list Event) :
  In v flavours ->
  chan log IceCreamToppingRecommenderTool.elicitParams
  = Fulfilled (Accepted (withFlavour (JsString v))) ->
  exists r,
    run chan log
      (IceCreamToppingRecommenderTool.execute noArguments
         (Some IceCreamMcpServer.elicitInput))
    = (Returned r,
       log ++ [EvElicit IceCreamToppingRecommenderTool.elicitParams
                 (Fulfilled (Accepted (withFlavour (JsString v))))])
    /\ forall e chan' log',
         run chan' log'
           (IceCreamToppingRecommenderTool.execute
              (withFlavour (JsString v)) e)
         = (Returned r, log').
Proof.
  intros Hin Hchan.
  assert (Hrec : exists r,
             IceCreamToppingRecommenderTool.recommend (JsString v) = Ret r).
  { simpl in Hin. destruct Hin as [<- | [<- | [<- | []]]]; eexists; reflexivity. }
  assert (Htruthy : Js.truthy (JsString v) = true).
  { simpl in Hin. destruct Hin as [<- | [<- | [<- | []]]]; reflexivity. }
  destruct Hrec as [r Hr]. exists r. split.
  - unfold IceCreamToppingRecommenderTool.execute.
    rewrite run_execute_elicit by reflexivity.
    rewrite Hchan. unfold afterElicit.
    rewrite acceptedFlavour_Accepted, flavourOf_withFlavour, Htruthy, Hr.
    reflexivity.
  - intros e chan' log'. unfold IceCreamToppingRecommenderTool.execute.
    rewrite executeWith_truthy by (by rewrite flavourOf_withFlavour).
    rewrite flavourOf_withFlavour, Hr. reflexivity.
Qed.

(** The theorem at vanilla, the instance the specification names. *)
Lemma elicited_equals_direct_witness :
  In "vanilla" flavours
  /\ always (Fulfilled (Accepted (withFlavour (JsString "vanilla")))) []
       IceCreamToppingRecommenderTool.elicitParams
     = Fulfilled (Accepted (withFlavour (JsString "vanilla")))
  /\ exists r,
       run (always (Fulfilled (Accepted (withFlavour (JsString "vanilla")))))
         []
         (IceCreamToppingRecommenderTool.execute noArguments
            (Some IceCreamMcpServer.elicitInput))
       = (Returned r,
          [] ++ [EvElicit IceCreamToppingRecommenderTool.elicitParams
                   (Fulfilled (Accepted (withFlavour (JsString "vanilla"))))])
       /\ forall e chan' log',
            run chan' log'
              (IceCreamToppingRecommenderTool.execute
                 (withFlavour (JsString "vanilla")) e)
            = (Returned r, log').
Proof.
  assert (H1 : In "vanilla" flavours) by (simpl; tauto).
  split; [exact H1 |]. split; [reflexivity |].
  exact (elicited_equals_direct "vanilla"
           (always (Fulfilled (Accepted (withFlavour (JsString "vanilla")))))
           [] H1 eq_refl).
Defined.

(** C3, as stated, fails twice. At [{flavour: "mango"}] the error text
    does not contain the value. At [{flavour: ""}], a value outside the
    enumerated set, the channel is asked. *)
Lemma execute_mango_not_named_empty_elicits :
  (~ exists r,
       IceCreamToppingRecommenderTool.execute
         (withFlavour (JsString "mango")) (channelArg true) = Ret r
       /\ exists t, In t (texts r) /\ Js.includes t "mango" = true)
  /\ (isDeclaredFlavour (JsString "") = false
      /\ exists k,
           IceCreamToppingRecommenderTool.execute
             (withFlavour (JsString "")) (channelArg true)
           = Elicit IceCreamToppingRecommenderTool.elicitParams k).
Proof.
  split.
  - intros (r & Hr & t & Hin & Hinc).
    unfold IceCreamToppingRecommenderTool.execute in Hr.
    rewrite executeWith_truthy in Hr by reflexivity.
    rewrite flavourOf_withFlavour in Hr.
    injection Hr as <-. simpl in Hin. destruct Hin as [<- | []].
    vm_compute in Hinc. discriminate Hinc.
  - split; [reflexivity |].
    destruct (executeWith_elicits IceCreamToppingRecommenderTool.recommend
                (withFlavour (JsString "")) eq_refl) as (k & Hk & _).
    exists k. exact Hk.
Qed.

(** C3 (amended): for a truthy value [v] outside the enumerated set (such
    as ["mango"]), [execute({flavour: v})] returns the result of the
    [default] case, which has [isError] true and the fixed text that calls
    the flavour unknown without naming the value; the run asks the channel
    nothing, whether one is passed or not. *)
Theorem execute_unknown_flavour (v : JsValue) (e : option ElicitFn) :
  Js.truthy v = true ->
  isDeclaredFlavour v = false ->
  IceCreamToppingRecommenderTool.execute (withFlavour v) e
  = Ret IceCreamToppingRecommenderTool.unknownFlavourResult
  /\ isError IceCreamToppingRecommenderTool.unknownFlavourResult = Some true
  /\ forall chan log,
       run chan log (IceCreamToppingRecommenderTool.execute (withFlavour v) e)
       = (Returned IceCreamToppingRecommenderTool.unknownFlavourResult, log).
Proof.
  intros Ht Hout.
  assert (Heq : IceCreamToppingRecommenderTool.execute (withFlavour v) e
                = Ret IceCreamToppingRecommenderTool.unknownFlavourResult).
  { unfold IceCreamToppingRecommenderTool.execute.
    rewrite executeWith_truthy by (by rewrite flavourOf_withFlavour).
    rewrite flavourOf_withFlavour. by apply recommend_unknown. }
  split; [exact Heq |]. split; [reflexivity |].
  intros chan log. rewrite Heq. reflexivity.
Qed.

(** The theorem at ["mango"]. *)
Lemma execute_unknown_flavour_witness :
  Js.truthy (JsString "mango") = true
  /\ isDeclaredFlavour (JsString "mango") = false
  /\ IceCreamToppingRecommenderTool.execute
       (withFlavour (JsString "mango")) (channelArg true)
     = Ret IceCreamToppingRecommenderTool.unknownFlavourResult
  /\ isError IceCreamToppingRecommenderTool.unknownFlavourResult = Some true
  /\ forall chan log,
       run chan log
         (IceCreamToppingRecommenderTool.execute
            (withFlavour (JsString "mango")) (channelArg true))
       = (Returned IceCreamToppingRecommenderTool.unknownFlavourResult, log).
Proof.
  split; [reflexivity |]. split; [reflexivity |].
  exact (execute_unknown_flavour (JsString "mango") (channelArg true)
           eq_refl eq_refl).
Defined.

(** C4, as stated, fails when the channel answers Accepted with
    [{flavour: "mango"}]: the result is an error, but no text of it speaks
    of a cancellation or of a missing selection. *)
Lemma accepted_mango_text_not_cancellation :
  ~ exists r log,
      run (always (Fulfilled (Accepted (withFlavour (JsString "mango"))))) []
        (IceCreamToppingRecommenderTool.execute noArguments (channelArg true))
      = (Returned r, log)
      /\ exists t,
           In t (texts r)
           /\ (Js.includes t "ancel" = true \/ Js.includes t "select" = true).
Proof.
  intros (r & log & Hrun & t & Hin & Hinc).
  unfold IceCreamToppingRecommenderTool.execute, channelArg in Hrun.
  rewrite run_execute_elicit in Hrun by reflexivity.
  unfold always, afterElicit in Hrun.
  rewrite acceptedFlavour_Accepted, flavourOf_withFlavour in Hrun.
  simpl in Hrun. injection Hrun as <- _.
  simpl in Hin. destruct Hin as [<- | []].
  destruct Hinc as [Hinc | Hinc]; vm_compute in Hinc; discriminate Hinc.
Qed.

(** C4 (amended): when [execute] elicits (no truthy flavour in [args], a
    channel present) and the channel answers Declined or Cancelled, or
    Accepted with the field absent or falsy, [execute] returns the result
    with [isError] true whose text says that the user cancelled or selected
    no flavour. When the channel answers Accepted with a truthy value that
    is not an enumerated flavour, [execute] returns the result with
    [isError] true whose text says that the flavour is unknown. In both
    cases the channel was asked once. *)
Theorem elicitation_failure (args : JsValue) (chan : Channel)
    (log : list Event) :
  Js.truthy (flavourOf args) = false ->
  (forall reply,
      chan log IceCreamToppingRecommenderTool.elicitParams = Fulfilled reply ->
      (reply = Declined \/ reply = Cancelled
       \/ exists c, reply = Accepted c /\ Js.truthy (flavourOf c) = false) ->
      run chan log
        (IceCreamToppingRecommenderTool.execute args (channelArg true))
      = (Returned IceCreamToppingRecommenderTool.cancelledResult,
         log ++ [EvElicit IceCreamToppingRecommenderTool.elicitParams
                   (Fulfilled reply)]))
  /\ (forall c,
        chan log IceCreamToppingRecommenderTool.elicitParams
        = Fulfilled (Accepted c) ->
        Js.truthy (flavourOf c) = true ->
        isDeclaredFlavour (flavourOf c) = false ->
        run chan log
          (IceCreamToppingRecommenderTool.execute args (channelArg true))
        = (Returned IceCreamToppingRecommenderTool.unknownFlavourResult,
           log ++ [EvElicit IceCreamToppingRecommenderTool.elicitParams
                     (Fulfilled (Accepted c))]))
  /\ isError IceCreamToppingRecommenderTool.cancelledResult = Some true
  /\ isError IceCreamToppingRecommenderTool.unknownFlavourResult = Some true.
Proof.
  intros Hf. unfold IceCreamToppingRecommenderTool.execute, channelArg.
  split; [| split; [| split; reflexivity]].
  - intros reply Hchan Hreply.
    rewrite run_execute_elicit by exact Hf.
    rewrite Hchan. unfold afterElicit.
    destruct Hreply as [-> | [-> | (c & -> & Hc)]].
    + rewrite acceptedFlavour_Declined. reflexivity.
    + rewrite acceptedFlavour_Cancelled. reflexivity.
    + rewrite acceptedFlavour_Accepted, Hc. reflexivity.
  - intros c Hchan Ht Hout.
    rewrite run_execute_elicit by exact Hf.
    rewrite Hchan. unfold afterElicit.
    rewrite acceptedFlavour_Accepted, Ht.
    rewrite (recommend_unknown _ Hout). reflexivity.
Qed.

(** The theorem at [{}], for a channel that declines and for one that
    accepts with ["mango"]. *)
Lemma elicitation_failure_witness :
  Js.truthy (flavourOf noArguments) = false
  /\ run (always (Fulfilled Declined)) []
       (IceCreamToppingRecommenderTool.execute noArguments (channelArg true))
     = (Returned IceCreamToppingRecommenderTool.cancelledResult,
        [] ++ [EvElicit IceCreamToppingRecommenderTool.elicitParams
                 (Fulfilled Declined)])
  /\ run (always (Fulfilled (Accepted (withFlavour (JsString "mango"))))) []
       (IceCreamToppingRecommenderTool.execute noArguments (channelArg true))
     = (Returned IceCreamToppingRecommenderTool.unknownFlavourResult,
        [] ++ [EvElicit IceCreamToppingRecommenderTool.elicitParams
                 (Fulfilled (Accepted (withFlavour (JsString "mango"))))]).
Proof.
  split; [reflexivity |]. split.
  - exact (proj1 (elicitation_failure noArguments
                    (always (Fulfilled Declined)) [] eq_refl)
             Declined eq_refl (or_introl eq_refl)).
  - refine (proj1 (proj2 (elicitation_failure noArguments
                    (always (Fulfilled
                       (Accepted (withFlavour (JsString "mango")))))
                    [] eq_refl))
             (withFlavour (JsString "mango")) eq_refl _ _);
      vm_compute; reflexivity.
Defined.

(** ** The dispatcher *)

(** A run of the call-tool handler, case by case: an unknown name and a
    throwing tool both end in [handleToolError]. *)
Lemma callToolHandler_run (this : IceCreamMcpServer.t)
    (params : CallToolParams) (chan : Channel) (log : list Event) :
  run chan log (IceCreamMcpServer.callToolHandler this params)
  = if negb (String.eqb (params_name params)
               (toolName (IceCreamMcpServer.tool this)))
    then
      let error :=
        ErrorInstance ("Unknown tool: " +:+ params_name params) in
      (Returned
         {| content :=
              [Text (IceCreamMcpServer.errorText (params_name params)
                       (IceCreamMcpServer.errorMessageOf error))];
            isError := Some true |},
       log ++ [EvConsoleError
                 ("Tool " +:+ params_name params +:+ " failed:") error])
    else
      match run chan log
              (toolExecute (IceCreamMcpServer.tool this)
                 (params_arguments params)
                 (Some IceCreamMcpServer.elicitInput)) with
      | (Returned r, log') => (Returned r, log')
      | (Threw error, log') =>
          (Returned
             {| content :=
                  [Text (IceCreamMcpServer.errorText (params_name params)
                           (IceCreamMcpServer.errorMessageOf error))];
                isError := Some true |},
           log' ++ [EvConsoleError
                      ("Tool " +:+ params_name params +:+ " failed:") error])
      end.
Proof.
  unfold IceCreamMcpServer.callToolHandler. rewrite run_try_catch.
  destruct (negb (String.eqb (params_name params)
                    (toolName (IceCreamMcpServer.tool this)))).
  - reflexivity.
  - destruct (run chan log
                (toolExecute (IceCreamMcpServer.tool this)
                   (params_arguments params)
                   (Some IceCreamMcpServer.elicitInput)))
      as [[r | error] log']; reflexivity.
Qed.

(** The call-tool handler always returns a result. *)
Lemma callToolHandler_returns (this : IceCreamMcpServer.t)
    (params : CallToolParams) (chan : Channel) (log : list Event) :
  exists r log',
    run chan log (IceCreamMcpServer.callToolHandler this params)
    = (Returned r, log').
Proof.
  rewrite callToolHandler_run.
  destruct (negb (String.eqb (params_name params)
                    (toolName (IceCreamMcpServer.tool this)))).
  - eexists _, _. reflexivity.
  - destruct (run chan log
                (toolExecute (IceCreamMcpServer.tool this)
                   (params_arguments params)
                   (Some IceCreamMcpServer.elicitInput)))
      as [[r | error] log']; eexists _, _; reflexivity.
Qed.


Example String_of_1e21 : Js.String (PNumber (10 ^ 21)) = "1e+21".
Proof. vm_compute. reflexivity. Qed.

Example String_of_2_pow_70 :
  Js.String (PNumber (- 2 ^ 70)) = "-1.1805916207174113e+21".
Proof. vm_compute. reflexivity. Qed.

Example String_below_1e21 :
  Js.String (PNumber (10 ^ 21 - 1)) = "999999999999999999999".
Proof. vm_compute. reflexivity. Qed.





(** ** Cancellation and the number of elicitations *)

(** C6: when [execute({})] elicits and the channel answers Cancelled or
    Declined, the result is the cancellation result ([isError] true, a text
    that says the user cancelled), whatever the lookup that follows would
    do: the [switch] is not reached, so the result is the same for every
    [lookup] put in its place. The log of the run grows by exactly the one
    request: there is no second attempt. *)
Theorem cancelled_is_terminal (lookup : JsValue -> Prog ToolResult)
    (chan : Channel) (log : list Event) (reply : JsValue) :
  reply = Cancelled \/ reply = Declined ->
  chan log IceCreamToppingRecommenderTool.elicitParams = Fulfilled reply ->
  run chan log
    (IceCreamToppingRecommenderTool.executeWith lookup noArguments
       (Some IceCreamMcpServer.elicitInput))
  = (Returned IceCreamToppingRecommenderTool.cancelledResult,
     log ++ [EvElicit IceCreamToppingRecommenderTool.elicitParams
               (Fulfilled reply)])
  /\ run chan log
       (IceCreamToppingRecommenderTool.execute noArguments
          (Some IceCreamMcpServer.elicitInput))
     = (Returned IceCreamToppingRecommenderTool.cancelledResult,
        log ++ [EvElicit IceCreamToppingRecommenderTool.elicitParams
                  (Fulfilled reply)])
  /\ isError IceCreamToppingRecommenderTool.cancelledResult = Some true
  /\ exists t,
       texts IceCreamToppingRecommenderTool.cancelledResult = [t]
       /\ Js.includes t "Cancelled by user" = true.
Proof.
  intros Hreply Hchan.
  assert (Hany : forall l,
             run chan log
               (IceCreamToppingRecommenderTool.executeWith l noArguments
                  (Some IceCreamMcpServer.elicitInput))
             = (Returned IceCreamToppingRecommenderTool.cancelledResult,
                log ++ [EvElicit IceCreamToppingRecommenderTool.elicitParams
                          (Fulfilled reply)])).
  { intros l. rewrite run_execute_elicit by reflexivity.
    rewrite Hchan. unfold afterElicit.
    destruct Hreply as [-> | ->].
    - rewrite acceptedFlavour_Cancelled. reflexivity.
    - rewrite acceptedFlavour_Declined. reflexivity. }
  split; [apply Hany |]. split; [apply Hany |]. split; [reflexivity |].
  eexists. split; [reflexivity |]. vm_compute. reflexivity.
Qed.

(** The theorem for a channel that cancels and a lookup that would throw
    if it were reached. *)
Lemma cancelled_is_terminal_witness :
  (Cancelled = Cancelled \/ Cancelled = Declined)
  /\ always (Fulfilled Cancelled) []
       IceCreamToppingRecommenderTool.elicitParams
     = Fulfilled Cancelled
  /\ run (always (Fulfilled Cancelled)) []
       (IceCreamToppingRecommenderTool.executeWith
          (fun _ => Throw (ErrorInstance "lookup reached")) noArguments
          (Some IceCreamMcpServer.elicitInput))
     = (Returned IceCreamToppingRecommenderTool.cancelledResult,
        [] ++ [EvElicit IceCreamToppingRecommenderTool.elicitParams
                 (Fulfilled Cancelled)]).
Proof.
  split; [left; reflexivity |]. split; [reflexivity |].
  exact (proj1 (cancelled_is_terminal
                  (fun _ => Throw (ErrorInstance "lookup reached"))
                  (always (Fulfilled Cancelled)) [] Cancelled
                  (or_introl eq_refl) eq_refl)).
Defined.

(** C7: on every path, [execute] either finishes without asking the
    channel, or asks it once and, whatever the answer, finishes right after
    it: Accepted content that is no enumerated flavour ends in an error
    result, not in a second request. So every run adds at most one request
    to the log, and the request precedes the outcome. *)
Theorem execute_elicits_at_most_once (args : JsValue) (available : bool) :
  (terminal
     (IceCreamToppingRecommenderTool.execute args (channelArg available))
   \/ exists k,
        IceCreamToppingRecommenderTool.execute args (channelArg available)
        = Elicit IceCreamToppingRecommenderTool.elicitParams k
        /\ (forall s, terminal (k s))
        /\ (forall c,
              isDeclaredFlavour (flavourOf c) = false ->
              exists r,
                k (Fulfilled (Accepted c)) = Ret r /\ isError r = Some true))
  /\ forall chan log,
       exists new,
         snd (run chan log
                (IceCreamToppingRecommenderTool.execute args
                   (channelArg available)))
         = log ++ new
         /\ elicitations new <= 1.
Proof.
  assert (Hshape :
    terminal
      (IceCreamToppingRecommenderTool.execute args (channelArg available))
    \/ exists k,
         IceCreamToppingRecommenderTool.execute args (channelArg available)
         = Elicit IceCreamToppingRecommenderTool.elicitParams k
         /\ (forall s, terminal (k s))
         /\ (forall c,
               isDeclaredFlavour (flavourOf c) = false ->
               exists r,
                 k (Fulfilled (Accepted c)) = Ret r /\ isError r = Some true)).
  { unfold IceCreamToppingRecommenderTool.execute.
    destruct (Js.truthy (flavourOf args)) eqn:Ht.
    - left. rewrite executeWith_truthy by exact Ht. apply recommend_terminal.
    - destruct available; simpl.
      + right.
        destruct (executeWith_elicits IceCreamToppingRecommenderTool.recommend
                    args Ht) as (k & Hk & Hafter).
        exists k. split; [exact Hk |]. split.
        * intros s. rewrite Hafter. apply afterElicit_recommend_terminal.
        * intros c Hout. rewrite Hafter. unfold afterElicit.
          rewrite acceptedFlavour_Accepted.
          destruct (Js.truthy (flavourOf c)).
          -- rewrite (recommend_unknown _ Hout). eexists. split; reflexivity.
          -- eexists. split; reflexivity.
      + left. rewrite executeWith_no_channel. apply recommend_terminal. }
  split; [exact Hshape |].
  intros chan log. apply elicits_at_most_run.
  destruct Hshape as [Hterm | (k & -> & Hk & _)].
  - by apply terminal_elicits_at_most.
  - simpl. intros s. by apply terminal_elicits_at_most.
Qed.

(** ** Listing the tools *)

Lemma run_terminal {A : Type} (chan : Channel) (log : list Event)
    (m : Prog A) :
  terminal m -> snd (run chan log m) = log.
Proof. destruct m; simpl; intros H; try reflexivity; destruct H. Qed.

(** The log of a run of [execute]: unchanged, or longer by the one request
    that carries [elicitParams]. *)
Lemma run_execute_log (args : JsValue) (available : bool) (chan : Channel)
    (log : list Event) :
  let out :=
    run chan log
      (IceCreamToppingRecommenderTool.execute args (channelArg available)) in
  snd out = log
  \/ snd out
     = log ++ [EvElicit IceCreamToppingRecommenderTool.elicitParams
                 (chan log IceCreamToppingRecommenderTool.elicitParams)].
Proof.
  simpl. unfold IceCreamToppingRecommenderTool.execute.
  destruct (Js.truthy (flavourOf args)) eqn:Ht.
  - left. rewrite executeWith_truthy by exact Ht.
    apply run_terminal, recommend_terminal.
  - destruct available; simpl.
    + right. rewrite run_execute_elicit by exact Ht.
      apply run_terminal, afterElicit_recommend_terminal.
    + left. rewrite executeWith_no_channel.
      apply run_terminal, recommend_terminal.
Qed.

Lemma recommend_returns (flavour : JsValue) :
  exists r, IceCreamToppingRecommenderTool.recommend flavour = Ret r.
Proof.
  unfold IceCreamToppingRecommenderTool.recommend.
  destruct flavour as [[| | b | n | s] | items | props];
    try (eexists; reflexivity).
  destruct (IceCreamToppingRecommenderTool.toppingsFor s);
    eexists; reflexivity.
Qed.

(** The property reads of [execute] never throw; the only exception that
    leaves it is a rejection of the elicitation. *)
Lemma execute_throws_only_rejections (args : JsValue) (available : bool)
    (chan : Channel) (log log' : list Event) (e : Thrown) :
  run chan log
    (IceCreamToppingRecommenderTool.execute args (channelArg available))
  = (Threw e, log') ->
  available = true
  /\ chan log IceCreamToppingRecommenderTool.elicitParams = Rejected e.
Proof.
  unfold IceCreamToppingRecommenderTool.execute.
  destruct (Js.truthy (flavourOf args)) eqn:Ht.
  - rewrite executeWith_truthy by exact Ht.
    destruct (recommend_returns (flavourOf args)) as [r ->].
    intros H. discriminate H.
  - destruct available; simpl.
    + rewrite run_execute_elicit by exact Ht.
      destruct (chan log IceCreamToppingRecommenderTool.elicitParams)
        as [result | e']; simpl.
      * destruct (acceptedFlavour result) as [v |].
        -- destruct (recommend_returns v) as [r ->]. intros H. discriminate H.
        -- intros H. discriminate H.
      * intros H. injection H as <- _. split; reflexivity.
    + rewrite executeWith_no_channel.
      destruct (recommend_returns (flavourOf args)) as [r ->].
      intros H. discriminate H.
Qed.

Lemma handle_returns (this : IceCreamMcpServer.t) (req : Request)
    (chan : Channel) (log : list Event) :
  exists resp log',
    run chan log (IceCreamMcpServer.setupHandlers this req)
    = (Returned resp, log')
    /\ (req = ListToolsRequest ->
        forall d,
          run chan log (IceCreamMcpServer.listToolsHandler this)
          = (Returned d, log) ->
          resp = ListToolsResponse d).
Proof.
  destruct req as [| params]; simpl.
  - eexists _, _. split; [reflexivity |].
    intros _ d Hd. injection Hd as <-. reflexivity.
  - rewrite mbind_bind, run_bind.
    destruct (callToolHandler_returns this params chan log)
      as (r & log' & ->).
    eexists _, _. split; [reflexivity |]. intros H. discriminate H.
Qed.

(** C8: the list-tools handler returns one fixed answer [d], the
    descriptor (name, description, input schema) of the registered tool, for
    every channel and every log; it leaves the log as it is and cannot
    throw. In a session of any requests, list-tools and call-tool in any
    order, every request is answered and every list-tools request gets that
    same [d]: no call changes what a later one lists. *)
Theorem listTools_idempotent (this : IceCreamMcpServer.t) :
  exists d,
    tools d
    = [ {| name := toolName (IceCreamMcpServer.tool this);
           description := toolDescription (IceCreamMcpServer.tool this);
           inputSchema :=
             ZodSchema (toolInputSchema (IceCreamMcpServer.tool this)) |} ]
    /\ (forall chan log,
          run chan log (IceCreamMcpServer.listToolsHandler this)
          = (Returned d, log))
    /\ (forall reqs chan log,
          exists rs log',
            run chan log (IceCreamMcpServer.serve this reqs)
            = (Returned rs, log')
            /\ Forall2
                 (fun req resp =>
                    req = ListToolsRequest -> resp = ListToolsResponse d)
                 reqs rs).
Proof.
  exists {| tools :=
              [ {| name := toolName (IceCreamMcpServer.tool this);
                   description :=
                     toolDescription (IceCreamMcpServer.tool this);
                   inputSchema :=
                     ZodSchema
                       (toolInputSchema (IceCreamMcpServer.tool this)) |} ] |}.
  split; [reflexivity |]. split; [reflexivity |].
  induction reqs as [| req rest IH]; intros chan log.
  - exists [], log. split; [reflexivity | constructor].
  - cbn [IceCreamMcpServer.serve]. rewrite mbind_bind, run_bind.
    destruct (handle_returns this req chan log) as (resp & log1 & Hrun & Hlist).
    rewrite Hrun. rewrite mbind_bind, run_bind.
    destruct (IH chan log1) as (rs & log2 & Hrest & Hall).
    rewrite Hrest. exists (resp :: rs), log2. split; [reflexivity |].
    constructor; [| exact Hall].
    intros Hreq. apply (Hlist Hreq). reflexivity.
Qed.

(** ** Schemas on the wire *)

(** C9: the schema of every elicitation request of [execute] has the wire
    shape, with the enumerated domain vanilla, strawberry, chocolate. The
    [inputSchema] of the list-tools response has not: the handler puts the
    Zod schema of [getInputSchema] into the response as it is, without
    turning it into a JSON schema. *)
Theorem listTools_inputSchema_not_wire_shape :
  (forall chan log,
     exists d,
       run chan log (IceCreamMcpServer.listToolsHandler IceCreamMcpServer.new)
       = (Returned {| tools := [d] |}, log)
       /\ inputSchema d
          = ZodSchema IceCreamToppingRecommenderTool.getInputSchema
       /\ conformsToWireShape (inputSchema d) = false)
  /\ (forall args available chan params answer,
        In (EvElicit params answer)
          (snd (run chan []
                  (IceCreamToppingRecommenderTool.execute args
                     (channelArg available)))) ->
        wireShape (requestedSchema params) = true
        /\ enumOf (requestedSchema params) "flavour"
           = Some (map (fun f => JsString f) flavours)).
Proof.
  split.
  - intros chan log. eexists. split; [reflexivity |].
    split; reflexivity.
  - intros args available chan params answer Hin.
    destruct (run_execute_log args available chan []) as [Hlog | Hlog];
      rewrite Hlog in Hin; simpl in Hin.
    + destruct Hin.
    + destruct Hin as [Hev | []]. injection Hev as <- _.
      split; vm_compute; reflexivity.
Qed.

(** ** Falsy flavours *)

(** C10: a [flavour] argument that is present but falsy (the empty string)
    is treated as an absent one: [execute] is the same program on
    [{flavour: v}] and on [{}], whatever is passed as channel. With the
    channel it starts by eliciting; without one it returns the result of the
    [default] case. *)
Theorem falsy_flavour_is_absent (v : JsValue) :
  Js.truthy v = false ->
  (forall e,
     IceCreamToppingRecommenderTool.execute (withFlavour v) e
     = IceCreamToppingRecommenderTool.execute noArguments e)
  /\ (exists k,
        IceCreamToppingRecommenderTool.execute (withFlavour v)
          (Some IceCreamMcpServer.elicitInput)
        = Elicit IceCreamToppingRecommenderTool.elicitParams k)
  /\ IceCreamToppingRecommenderTool.execute (withFlavour v) None
     = Ret IceCreamToppingRecommenderTool.unknownFlavourResult.
Proof.
  intros Hv.
  assert (Hnone : IceCreamToppingRecommenderTool.execute (withFlavour v) None
                  = Ret IceCreamToppingRecommenderTool.unknownFlavourResult).
  { unfold IceCreamToppingRecommenderTool.execute.
    rewrite executeWith_no_channel, flavourOf_withFlavour.
    apply recommend_unknown, falsy_not_declared, Hv. }
  split; [| split; [| exact Hnone]].
  - intros [elicit |].
    + unfold IceCreamToppingRecommenderTool.execute,
        IceCreamToppingRecommenderTool.executeWith,
        IceCreamToppingRecommenderTool.resolveFlavour.
      rewrite !get_args_flavour, flavourOf_withFlavour. simpl.
      rewrite Hv. reflexivity.
    + rewrite Hnone. reflexivity.
  - unfold IceCreamToppingRecommenderTool.execute.
    destruct (executeWith_elicits IceCreamToppingRecommenderTool.recommend
                (withFlavour v)) as (k & Hk & _).
    + by rewrite flavourOf_withFlavour.
    + exists k. exact Hk.
Qed.

(** The theorem at the empty string. *)
Lemma falsy_flavour_is_absent_witness :
  Js.truthy (JsString "") = false
  /\ (forall e,
        IceCreamToppingRecommenderTool.execute (withFlavour (JsString "")) e
        = IceCreamToppingRecommenderTool.execute noArguments e)
  /\ (exists k,
        IceCreamToppingRecommenderTool.execute (withFlavour (JsString ""))
          (Some IceCreamMcpServer.elicitInput)
        = Elicit IceCreamToppingRecommenderTool.elicitParams k)
  /\ IceCreamToppingRecommenderTool.execute (withFlavour (JsString "")) None
     = Ret IceCreamToppingRecommenderTool.unknownFlavourResult.
Proof.
  split; [reflexivity |].
  exact (falsy_flavour_is_absent (JsString "") eq_refl).
Defined.

(* ================================================================== *)
(** * Further properties of the code *)
(* ================================================================== *)

(** ** What [execute] reads *)

Lemma execute_same_flavour (a b : JsValue) (e : option ElicitFn) :
  flavourOf a = flavourOf b ->
  IceCreamToppingRecommenderTool.execute a e
  = IceCreamToppingRecommenderTool.execute b e.
Proof.
  intros Hab.
  unfold IceCreamToppingRecommenderTool.execute,
    IceCreamToppingRecommenderTool.executeWith,
    IceCreamToppingRecommenderTool.resolveFlavour.
  rewrite !get_args_flavour, Hab. reflexivity.
Qed.

(** X1: [execute] reads nothing of [args] but its [flavour] property. On an
    object it is the same program as on [{flavour: args.flavour}], whatever
    other properties the object has; on [undefined], [null], any other
    primitive and any array, for which [args || {}] or the destructuring
    finds no flavour, it is the same program as on [{}]. *)
Theorem execute_reads_only_flavour (e : option ElicitFn) :
  (forall props : gmap string JsValue,
     IceCreamToppingRecommenderTool.execute (JsObject props) e
     = IceCreamToppingRecommenderTool.execute
         (withFlavour (default JsUndefined (props !! "flavour"))) e)
  /\ (forall p : Primitive,
        IceCreamToppingRecommenderTool.execute (JsPrim p) e
        = IceCreamToppingRecommenderTool.execute noArguments e)
  /\ (forall items : list JsValue,
        IceCreamToppingRecommenderTool.execute (JsArray items) e
        = IceCreamToppingRecommenderTool.execute noArguments e).
Proof.
  split; [| split].
  - intros props. apply execute_same_flavour.
    by rewrite flavourOf_withFlavour.
  - intros p. by apply execute_same_flavour.
  - intros items. by apply execute_same_flavour.
Qed.

(** ** Answers of the channel *)

Lemma notAnAcceptance_no_flavour (reply : JsValue) :
  notAnAcceptance reply = true -> acceptedFlavour reply = None.
Proof.
  unfold notAnAcceptance, acceptedFlavour.
  destruct reply as [p | items | props]; try reflexivity.
  destruct (Js.strict_eq_string (default JsUndefined (props !! "action"))
              "accept"); simpl; [| reflexivity].
  destruct (default JsUndefined (props !! "content"))
    as [[| | b | n | s] | items | c]; simpl; try reflexivity.
  intros H. discriminate H.
Qed.

(** X2: when [execute] elicits and the answer is malformed (not an object,
    or an object whose [action] is anything but the exact string
    ["accept"], or one whose [content] is not an object), nothing is thrown:
    the run returns the cancellation result after the one request. *)
Theorem malformed_answer_is_cancellation (args reply : JsValue)
    (chan : Channel) (log : list Event) :
  Js.truthy (flavourOf args) = false ->
  chan log IceCreamToppingRecommenderTool.elicitParams = Fulfilled reply ->
  notAnAcceptance reply = true ->
  run chan log
    (IceCreamToppingRecommenderTool.execute args
       (Some IceCreamMcpServer.elicitInput))
  = (Returned IceCreamToppingRecommenderTool.cancelledResult,
     log ++ [EvElicit IceCreamToppingRecommenderTool.elicitParams
               (Fulfilled reply)]).
Proof.
  intros Hf Hchan Hbad.
  unfold IceCreamToppingRecommenderTool.execute.
  rewrite run_execute_elicit by exact Hf.
  rewrite Hchan. unfold afterElicit.
  rewrite (notAnAcceptance_no_flavour _ Hbad). reflexivity.
Qed.

(** The theorem at [execute(undefined)] and the answer [null]. *)
Lemma malformed_answer_is_cancellation_witness :
  Js.truthy (flavourOf JsUndefined) = false
  /\ always (Fulfilled JsNull) [] IceCreamToppingRecommenderTool.elicitParams
     = Fulfilled JsNull
  /\ notAnAcceptance JsNull = true
  /\ run (always (Fulfilled JsNull)) []
       (IceCreamToppingRecommenderTool.execute JsUndefined
          (Some IceCreamMcpServer.elicitInput))
     = (Returned IceCreamToppingRecommenderTool.cancelledResult,
        [] ++ [EvElicit IceCreamToppingRecommenderTool.elicitParams
                 (Fulfilled JsNull)]).
Proof.
  split; [reflexivity |]. split; [reflexivity |]. split; [reflexivity |].
  exact (malformed_answer_is_cancellation JsUndefined JsNull
           (always (Fulfilled JsNull)) [] eq_refl eq_refl eq_refl).
Defined.

(** X3: an exception leaves [execute] in exactly one situation: a channel is
    passed, [args] has no truthy flavour, and the channel rejects the
    request; the exception is then the rejection itself, and the log holds
    the one request. *)
Theorem execute_throws_iff_rejected (args : JsValue) (available : bool)
    (chan : Channel) (log : list Event) (e : Thrown) :
  (exists log',
     run chan log
       (IceCreamToppingRecommenderTool.execute args (channelArg available))
     = (Threw e, log'))
  <-> (available = true
       /\ Js.truthy (flavourOf args) = false
       /\ chan log IceCreamToppingRecommenderTool.elicitParams = Rejected e).
Proof.
  split.
  - intros (log' & Hrun).
    destruct (execute_throws_only_rejections _ _ _ _ _ _ Hrun) as [-> Hrej].
    split; [reflexivity |]. split; [| exact Hrej].
    destruct (Js.truthy (flavourOf args)) eqn:Ht; [| reflexivity].
    unfold IceCreamToppingRecommenderTool.execute in Hrun.
    rewrite executeWith_truthy in Hrun by exact Ht.
    destruct (recommend_returns (flavourOf args)) as [r Hr].
    rewrite Hr in Hrun. discriminate Hrun.
  - intros (-> & Hf & Hrej).
    exists (log ++ [EvElicit IceCreamToppingRecommenderTool.elicitParams
                      (Rejected e)]).
    unfold IceCreamToppingRecommenderTool.execute, channelArg.
    rewrite run_execute_elicit by exact Hf.
    rewrite Hrej. reflexivity.
Qed.

(** The theorem for a channel that rejects the request of [execute({})]. *)
Lemma execute_throws_iff_rejected_witness :
  exists log',
    run (always (Rejected (ErrorInstance "Request timed out"))) []
      (IceCreamToppingRecommenderTool.execute noArguments (channelArg true))
    = (Threw (ErrorInstance "Request timed out"), log').
Proof.
  apply (proj2 (execute_throws_iff_rejected noArguments true
                  (always (Rejected (ErrorInstance "Request timed out")))
                  [] (ErrorInstance "Request timed out"))).
  split; [reflexivity |]. split; reflexivity.
Defined.

(** ** The results of [execute] *)

Lemma recommend_cases (v : JsValue) :
  IceCreamToppingRecommenderTool.recommend v
  = Ret IceCreamToppingRecommenderTool.unknownFlavourResult
  \/ exists f ts,
       In (f, ts) declaredToppings
       /\ v = JsString f
       /\ IceCreamToppingRecommenderTool.recommend v
          = Ret {| content :=
                     [Text (IceCreamToppingRecommenderTool.recommendationText
                              f ts)];
                   isError := None |}.
Proof.
  destruct v as [[| | b | n | s] | items | props]; try (left; reflexivity).
  unfold IceCreamToppingRecommenderTool.recommend,
    IceCreamToppingRecommenderTool.toppingsFor, declaredToppings.
  destruct (String.eqb_spec s "vanilla") as [-> | _].
  { right. eexists _, _. split; [left; reflexivity |]. split; reflexivity. }
  destruct (String.eqb_spec s "strawberry") as [-> | _].
  { right. eexists _, _.
    split; [right; left; reflexivity |]. split; reflexivity. }
  destruct (String.eqb_spec s "chocolate") as [-> | _].
  { right. eexists _, _.
    split; [right; right; left; reflexivity |]. split; reflexivity. }
  left. reflexivity.
Qed.

(** A returned result is one of three: the cancellation, the unknown
    flavour, or the recommendation of a declared flavour. *)
Lemma execute_result_cases (args : JsValue) (available : bool)
    (chan : Channel) (log log' : list Event) (r : ToolResult) :
  run chan log
    (IceCreamToppingRecommenderTool.execute args (channelArg available))
  = (Returned r, log') ->
  r = IceCreamToppingRecommenderTool.cancelledResult
  \/ r = IceCreamToppingRecommenderTool.unknownFlavourResult
  \/ exists f ts,
       In (f, ts) declaredToppings
       /\ r = {| content :=
                   [Text (IceCreamToppingRecommenderTool.recommendationText
                            f ts)];
                 isError := None |}.
Proof.
  assert (Hrec : forall v l l',
            run chan l (IceCreamToppingRecommenderTool.recommend v)
            = (Returned r, l') ->
            r = IceCreamToppingRecommenderTool.unknownFlavourResult
            \/ exists f ts,
                 In (f, ts) declaredToppings
                 /\ r = {| content :=
                             [Text
                                (IceCreamToppingRecommenderTool.recommendationText
                                   f ts)];
                           isError := None |}).
  { intros v l l' Hrun.
    destruct (recommend_cases v) as [Hu | (f & ts & Hin & _ & Hs)].
    - rewrite Hu in Hrun. injection Hrun as <- _. left. reflexivity.
    - rewrite Hs in Hrun. injection Hrun as <- _. right. eauto. }
  unfold IceCreamToppingRecommenderTool.execute.
  destruct (Js.truthy (flavourOf args)) eqn:Ht.
  - rewrite executeWith_truthy by exact Ht. intros Hrun. right. eauto.
  - destruct available; simpl.
    + rewrite run_execute_elicit by exact Ht.
      destruct (chan log IceCreamToppingRecommenderTool.elicitParams)
        as [result | e']; simpl; [| intros H; discriminate H].
      destruct (acceptedFlavour result) as [v |].
      * intros Hrun. right. eauto.
      * intros Hrun. injection Hrun as <- _. left. reflexivity.
    + rewrite executeWith_no_channel. intros Hrun. right. eauto.
Qed.

(** X4: every result that [execute] returns has exactly one text block,
    and its [isError] is either absent or [true], never [false]. It is
    absent exactly when the text is the recommendation sentence of one of
    the three declared flavours; so a caller can tell success from failure
    by the flag alone. *)
Theorem execute_result_invariant (args : JsValue) (available : bool)
    (chan : Channel) (log log' : list Event) (r : ToolResult) :
  run chan log
    (IceCreamToppingRecommenderTool.execute args (channelArg available))
  = (Returned r, log') ->
  (exists t, content r = [Text t])
  /\ (isError r = None \/ isError r = Some true)
  /\ (isError r = None
      <-> exists f ts,
            In (f, ts) declaredToppings
            /\ content r
               = [Text (IceCreamToppingRecommenderTool.recommendationText
                          f ts)]).
Proof.
  intros Hrun.
  assert (Hdiff : forall f ts t,
            In (f, ts) declaredToppings ->
            (t = IceCreamToppingRecommenderTool.cancelledResult
             \/ t = IceCreamToppingRecommenderTool.unknownFlavourResult) ->
            content t
            <> [Text (IceCreamToppingRecommenderTool.recommendationText
                        f ts)]).
  { intros f ts t Hin Ht Heq. simpl in Hin.
    destruct Hin as [Hp | [Hp | [Hp | []]]]; injection Hp as <- <-;
      destruct Ht as [-> | ->]; vm_compute in Heq; discriminate Heq. }
  destruct (execute_result_cases _ _ _ _ _ _ Hrun)
    as [-> | [-> | (f & ts & Hin & ->)]].
  - split; [eexists; reflexivity |]. split; [right; reflexivity |]. split.
    + intros H. discriminate H.
    + intros (f & ts & Hin & Heq). exfalso.
      apply (Hdiff f ts _ Hin (or_introl eq_refl)). exact Heq.
  - split; [eexists; reflexivity |]. split; [right; reflexivity |]. split.
    + intros H. discriminate H.
    + intros (f & ts & Hin & Heq). exfalso.
      apply (Hdiff f ts _ Hin (or_intror eq_refl)). exact Heq.
  - split; [eexists; reflexivity |]. split; [left; reflexivity |]. split.
    + intros _. exists f, ts. split; [exact Hin | reflexivity].
    + intros _. reflexivity.
Qed.

(** The theorem for [execute({flavour: "strawberry"})] without a channel. *)
Lemma execute_result_invariant_witness :
  exists r,
    run (always (Fulfilled Cancelled)) []
      (IceCreamToppingRecommenderTool.execute
         (withFlavour (JsString "strawberry")) (channelArg false))
    = (Returned r, [])
    /\ (exists t, content r = [Text t])
    /\ (isError r = None \/ isError r = Some true).
Proof.
  eexists. split; [vm_compute; reflexivity |].
  pose proof (execute_result_invariant (withFlavour (JsString "strawberry"))
                false (always (Fulfilled Cancelled)) [] [] _
                ltac:(vm_compute; reflexivity)) as (H1 & H2 & _).
  split; [exact H1 | exact H2].
Defined.

(** ** The schemas and the [switch] *)

(** X5: the three places that list the flavours agree. The Zod schema of
    [getInputSchema] and the JSON schema sent with the elicitation declare
    the same enumerated values for [flavour], in the same order, and the
    [switch] gives a recommendation (a result without error flag) to
    exactly these values: a string outside the list, or a value that is no
    string, gets none. *)
Theorem schemas_agree_with_switch :
  exists items,
    zodFieldEnum IceCreamToppingRecommenderTool.getInputSchema "flavour"
    = Some items
    /\ enumOf IceCreamToppingRecommenderTool.jsonSchema "flavour"
       = Some (map (fun s => JsString s) items)
    /\ forall v,
         (exists r,
            IceCreamToppingRecommenderTool.recommend v = Ret r
            /\ isError r = None)
         <-> exists s, v = JsString s /\ In s items.
Proof.
  exists ["vanilla"; "strawberry"; "chocolate"].
  split; [reflexivity |]. split; [vm_compute; reflexivity |].
  intros v. split.
  - intros (r & Hr & He).
    destruct (recommend_cases v) as [Hu | (f & ts & Hin & -> & _)].
    + rewrite Hu in Hr. injection Hr as <-. discriminate He.
    + exists f. split; [reflexivity |].
      simpl in Hin.
      destruct Hin as [Hp | [Hp | [Hp | []]]]; injection Hp as <- _;
        simpl; tauto.
  - intros (s & -> & Hin). simpl in Hin.
    destruct Hin as [<- | [<- | [<- | []]]]; eexists; split; reflexivity.
Qed.

(** ** The call-tool handler on the registered tool *)

Lemma toolExecute_new :
  toolExecute (IceCreamMcpServer.tool IceCreamMcpServer.new)
  = IceCreamToppingRecommenderTool.execute.
Proof. reflexivity. Qed.

(** A run of the handler on the registered name, in terms of [execute]. *)
Lemma callToolHandler_registered (args : JsValue) (chan : Channel)
    (log : list Event) :
  run chan log
    (IceCreamMcpServer.callToolHandler IceCreamMcpServer.new
       (registeredCall args))
  = match run chan log
            (IceCreamToppingRecommenderTool.execute args (channelArg true))
    with
    | (Returned r, log') => (Returned r, log')
    | (Threw error, log') =>
        (Returned
           {| content :=
                [Text (IceCreamMcpServer.errorText
                         IceCreamToppingRecommenderTool.getName
                         (IceCreamMcpServer.errorMessageOf error))];
              isError := Some true |},
         log' ++ [EvConsoleError
                    ("Tool " +:+ IceCreamToppingRecommenderTool.getName
                     +:+ " failed:") error])
    end.
Proof. rewrite callToolHandler_run. reflexivity. Qed.

(** X6: what a call of the registered tool through the handler leaves in
    the log. With a truthy flavour in the arguments: nothing. Otherwise one
    elicitation request, and, only when the channel rejects it, one console
    line after it that carries the rejection. So the user is asked exactly
    when the flavour is missing or falsy, and results that the tool itself
    returns, error results included, are not written to the console. *)
Theorem callTool_registered_trace (args : JsValue) (chan : Channel)
    (log : list Event) :
  snd (run chan log
         (IceCreamMcpServer.callToolHandler IceCreamMcpServer.new
            (registeredCall args)))
  = log ++
    (if Js.truthy (flavourOf args) then []
     else
       match chan log IceCreamToppingRecommenderTool.elicitParams with
       | Fulfilled reply =>
           [EvElicit IceCreamToppingRecommenderTool.elicitParams
              (Fulfilled reply)]
       | Rejected e =>
           [EvElicit IceCreamToppingRecommenderTool.elicitParams (Rejected e);
            EvConsoleError
              ("Tool " +:+ IceCreamToppingRecommenderTool.getName
               +:+ " failed:") e]
       end).
Proof.
  rewrite callToolHandler_registered.
  unfold IceCreamToppingRecommenderTool.execute, channelArg.
  destruct (Js.truthy (flavourOf args)) eqn:Ht.
  - rewrite executeWith_truthy by exact Ht.
    destruct (recommend_returns (flavourOf args)) as [r ->].
    simpl. by rewrite app_nil_r.
  - rewrite run_execute_elicit by exact Ht.
    destruct (chan log IceCreamToppingRecommenderTool.elicitParams)
      as [reply | e]; simpl.
    + destruct (acceptedFlavour reply) as [v |]; [| reflexivity].
      destruct (recommend_returns v) as [r ->]. reflexivity.
    + by rewrite <- app_assoc.
Qed.

(** X7: for the registered name the handler adds nothing to a tool that
    returns: the result and the log of the handler are those of the tool's
    [execute], for any registered tool. An error result that the tool
    returns (as opposed to an exception it throws) is handed on unchanged,
    without the prefix and the console line of [handleToolError]. *)
Theorem callTool_passes_results_through (this : IceCreamMcpServer.t)
    (params : CallToolParams) (chan : Channel) (log log' : list Event)
    (r : ToolResult) :
  params_name params = toolName (IceCreamMcpServer.tool this) ->
  run chan log
    (toolExecute (IceCreamMcpServer.tool this) (params_arguments params)
       (Some IceCreamMcpServer.elicitInput))
  = (Returned r, log') ->
  run chan log (IceCreamMcpServer.callToolHandler this params)
  = (Returned r, log').
Proof.
  intros Hname Hrun. rewrite callToolHandler_run, Hname.
  rewrite String.eqb_refl. cbn [negb]. rewrite Hrun. reflexivity.
Qed.

(** The theorem on the reference server, for ["mango"]: the error result
    of the tool comes back as it is. *)
Lemma callTool_passes_results_through_witness :
  params_name (registeredCall (withFlavour (JsString "mango")))
  = toolName (IceCreamMcpServer.tool IceCreamMcpServer.new)
  /\ run (always (Fulfilled Cancelled)) []
       (IceCreamMcpServer.callToolHandler IceCreamMcpServer.new
          (registeredCall (withFlavour (JsString "mango"))))
     = (Returned IceCreamToppingRecommenderTool.unknownFlavourResult, []).
Proof.
  split; [reflexivity |].
  apply (callTool_passes_results_through IceCreamMcpServer.new
           (registeredCall (withFlavour (JsString "mango")))
           (always (Fulfilled Cancelled)) [] []
           IceCreamToppingRecommenderTool.unknownFlavourResult eq_refl).
  vm_compute. reflexivity.
Defined.

(** ** Sessions *)

Lemma elicitations_nil : elicitations [] = 0.
Proof. reflexivity. Qed.

Lemma callToolRequests_cons (req : Request) (rest : list Request) :
  callToolRequests (req :: rest)
  = (if isCallTool req then 1 else 0) + callToolRequests rest.
Proof.
  unfold callToolRequests. simpl. destruct (isCallTool req); reflexivity.
Qed.

(** One request on the reference server: it is answered, and it asks the
    channel at most once, and only if it is a call-tool request. *)
Lemma setupHandlers_step (req : Request) (chan : Channel)
    (log : list Event) :
  exists resp new,
    run chan log (IceCreamMcpServer.setupHandlers IceCreamMcpServer.new req)
    = (Returned resp, log ++ new)
    /\ elicitations new <= (if isCallTool req then 1 else 0).
Proof.
  destruct req as [| params]; simpl.
  - eexists _, []. rewrite app_nil_r. split; [reflexivity |].
    rewrite elicitations_nil. apply Nat.le_0_l.
  - rewrite mbind_bind, run_bind, callToolHandler_run.
    destruct (negb (String.eqb (params_name params)
                      (toolName (IceCreamMcpServer.tool
                                   IceCreamMcpServer.new)))).
    + eexists _, [_]. split; [reflexivity |].
      rewrite elicitations_cons_console, elicitations_nil. apply Nat.le_0_l.
    + assert (Hlog :
        snd (run chan log
               (toolExecute (IceCreamMcpServer.tool IceCreamMcpServer.new)
                  (params_arguments params)
                  (Some IceCreamMcpServer.elicitInput))) = log
        \/ snd (run chan log
                  (toolExecute (IceCreamMcpServer.tool IceCreamMcpServer.new)
                     (params_arguments params)
                     (Some IceCreamMcpServer.elicitInput)))
           = log ++ [EvElicit IceCreamToppingRecommenderTool.elicitParams
                       (chan log IceCreamToppingRecommenderTool.elicitParams)])
        by exact (run_execute_log (params_arguments params) true chan log).
      destruct (run chan log
                  (toolExecute (IceCreamMcpServer.tool IceCreamMcpServer.new)
                     (params_arguments params)
                     (Some IceCreamMcpServer.elicitInput)))
        as [[r | error] log1]; simpl in Hlog; destruct Hlog as [-> | ->].
      * eexists _, []. rewrite app_nil_r. split; [reflexivity |].
        rewrite elicitations_nil. apply Nat.le_0_l.
      * eexists _, [_]. split; [reflexivity |].
        rewrite elicitations_cons_elicit, elicitations_nil. apply Nat.le_refl.
      * eexists _, [_]. split; [reflexivity |].
        rewrite elicitations_cons_console, elicitations_nil. apply Nat.le_0_l.
      * eexists _, [_; _]. split; [by rewrite <- app_assoc |].
        rewrite elicitations_cons_elicit, elicitations_cons_console,
          elicitations_nil. apply Nat.le_refl.
Qed.

(** X8: a session of the reference server answers every request, one
    response per request, and asks the channel at most once per call-tool
    request: the number of elicitations of the whole session is at most the
    number of its call-tool requests, whatever the channel answers.
    List-tools requests never reach the channel. *)
Theorem session_elicitation_bound (reqs : list Request) :
  forall (chan : Channel) (log : list Event),
  exists rs new,
    run chan log (IceCreamMcpServer.serve IceCreamMcpServer.new reqs)
    = (Returned rs, log ++ new)
    /\ length rs = length reqs
    /\ elicitations new <= callToolRequests reqs.
Proof.
  induction reqs as [| req rest IH]; intros chan log.
  - exists [], []. rewrite app_nil_r. split; [reflexivity |].
    split; [reflexivity | apply Nat.le_0_l].
  - cbn [IceCreamMcpServer.serve]. rewrite mbind_bind, run_bind.
    destruct (setupHandlers_step req chan log) as (resp & new1 & -> & H1).
    rewrite mbind_bind, run_bind.
    destruct (IH chan (log ++ new1)) as (rs & new2 & -> & Hlen & H2).
    exists (resp :: rs), (new1 ++ new2). split; [| split].
    + simpl. by rewrite <- app_assoc.
    + simpl. by rewrite Hlen.
    + rewrite elicitations_app, callToolRequests_cons. lia.
Qed.

(** ** Elicited and direct values *)

(** X9: a value obtained by elicitation is treated exactly as the same
    value passed directly, whether or not it is an enumerated flavour.
    When [args] has no truthy flavour and the channel answers Accepted with
    a content whose [flavour] is a truthy value [v] (whatever else the
    content holds), the run returns what [execute({flavour: v})] returns
    directly: the elicited value is looked up by the same [switch] and is
    not checked against the enumeration in any other way. *)
Theorem elicited_value_as_direct (args c : JsValue) (chan : Channel)
    (log : list Event) :
  Js.truthy (flavourOf args) = false ->
  chan log IceCreamToppingRecommenderTool.elicitParams
  = Fulfilled (Accepted c) ->
  Js.truthy (flavourOf c) = true ->
  exists r,
    run chan log
      (IceCreamToppingRecommenderTool.execute args
         (Some IceCreamMcpServer.elicitInput))
    = (Returned r,
       log ++ [EvElicit IceCreamToppingRecommenderTool.elicitParams
                 (Fulfilled (Accepted c))])
    /\ forall e chan' log',
         run chan' log'
           (IceCreamToppingRecommenderTool.execute
              (withFlavour (flavourOf c)) e)
         = (Returned r, log').
Proof.
  intros Hf Hchan Ht.
  destruct (recommend_returns (flavourOf c)) as [r Hr].
  exists r. split.
  - unfold IceCreamToppingRecommenderTool.execute.
    rewrite run_execute_elicit by exact Hf.
    rewrite Hchan. unfold afterElicit.
    rewrite acceptedFlavour_Accepted, Ht, Hr. reflexivity.
  - intros e chan' log'. unfold IceCreamToppingRecommenderTool.execute.
    rewrite executeWith_truthy by (by rewrite flavourOf_withFlavour).
    rewrite flavourOf_withFlavour, Hr. reflexivity.
Qed.

(** The theorem at [execute(null)] and an accepted ["pistachio"], which is
    no enumerated flavour. *)
Lemma elicited_value_as_direct_witness :
  Js.truthy (flavourOf JsNull) = false
  /\ always (Fulfilled (Accepted (withFlavour (JsString "pistachio")))) []
       IceCreamToppingRecommenderTool.elicitParams
     = Fulfilled (Accepted (withFlavour (JsString "pistachio")))
  /\ Js.truthy (flavourOf (withFlavour (JsString "pistachio"))) = true
  /\ exists r,
       run (always (Fulfilled (Accepted (withFlavour (JsString "pistachio")))))
         []
         (IceCreamToppingRecommenderTool.execute JsNull
            (Some IceCreamMcpServer.elicitInput))
       = (Returned r,
          [] ++ [EvElicit IceCreamToppingRecommenderTool.elicitParams
                   (Fulfilled (Accepted (withFlavour (JsString "pistachio"))))])
       /\ forall e chan' log',
            run chan' log'
              (IceCreamToppingRecommenderTool.execute
                 (withFlavour
                    (flavourOf (withFlavour (JsString "pistachio")))) e)
            = (Returned r, log').
Proof.
  split; [reflexivity |]. split; [reflexivity |]. split; [reflexivity |].
  exact (elicited_value_as_direct JsNull (withFlavour (JsString "pistachio"))
           (always (Fulfilled (Accepted (withFlavour (JsString "pistachio")))))
           [] eq_refl eq_refl eq_refl).
Defined.

(** ** Start-up and the global error handlers *)

(** X10: start-up never leaves a rejection unhandled. Whatever the
    constructor of the transport and the connection do, [main] either
    returns or ends the process with code 1, and it ends the process
    exactly when one of the two steps fails. On a failure one line is
    written, and it carries the error of the step that failed; on success
    two lines are written, the second ending with the name of the
    registered tool. *)
Theorem startup_outcome (env : StartupEnv) :
  exists out lines,
    prun env [] Process.main = (out, lines)
    /\ (forall e, out <> PThrew e)
    /\ (out = PReturned tt \/ out = PExited 1)
    /\ (out = PExited 1
        <-> (transportFails env <> None \/ connectFails env <> None))
    /\ (forall e,
          (transportFails env = Some e
           \/ (transportFails env = None /\ connectFails env = Some e)) ->
          exists line, lines = [line] /\ lineErrors line = [e])
    /\ (out = PReturned tt ->
        exists first prefix,
          lines
          = [first;
             [CText (prefix +:+ IceCreamToppingRecommenderTool.getName)]]).
Proof.
  destruct env as [[e1 |] [e2 |]]; simpl;
    eexists _, _; (split; [reflexivity |]);
    (split; [intros e H; discriminate H |]).
  - split; [right; reflexivity |]. split.
    + split; [intros _; left; discriminate | reflexivity].
    + split.
      * intros e [[= <-] | [[=] _]]. eexists. split; reflexivity.
      * intros H. discriminate H.
  - split; [right; reflexivity |]. split.
    + split; [intros _; left; discriminate | reflexivity].
    + split.
      * intros e [[= <-] | [[=] _]]. eexists. split; reflexivity.
      * intros H. discriminate H.
  - split; [right; reflexivity |]. split.
    + split; [intros _; right; discriminate | reflexivity].
    + split.
      * intros e [[=] | [_ [= <-]]]. eexists. split; reflexivity.
      * intros H. discriminate H.
  - split; [left; reflexivity |]. split.
    + split; [intros H; discriminate H | intros [H | H]; by destruct H].
    + split.
      * intros e [[=] | [_ [=]]].
      * intros _. eexists _, _. reflexivity.
Qed.

(** X11: of the handlers that [setupErrorHandling] installs, only the one
    for uncaught exceptions ends the process. A sequence of server errors
    and unhandled rejections is survived, each written as one line. At the
    first uncaught exception the process writes its line and exits with
    code 1; no signal after it is handled. *)
Theorem supervise_exits_at_first_uncaught (env : StartupEnv) :
  (forall signals lines,
     forallb (fun s => negb (isUncaughtException s)) signals = true ->
     exists new,
       prun env lines (Process.supervise signals)
       = (PReturned tt, lines ++ new)
       /\ length new = length signals)
  /\ (forall before error after lines,
        forallb (fun s => negb (isUncaughtException s)) before = true ->
        exists new,
          prun env lines
            (Process.supervise (before ++ UncaughtException error :: after))
          = (PExited 1,
             lines ++ new
             ++ [[CText "Uncaught Exception:"; CError error]])
          /\ length new = length before).
Proof.
  split.
  - induction signals as [| s rest IH]; intros lines Hok.
    + exists []. rewrite app_nil_r. split; reflexivity.
    + simpl in Hok. apply andb_true_iff in Hok as [Hs Hrest].
      destruct s as [error | reason | error]; [| | discriminate Hs]; simpl.
      * destruct (IH (lines ++ [[CText "Server error:"; CError error]]) Hrest)
          as (new & -> & Hlen).
        eexists (_ :: new). split; [by rewrite <- app_assoc |].
        simpl. by rewrite Hlen.
      * destruct (IH (lines ++ [[CText "Unhandled Rejection at:"; CPromise;
                                 CText "reason:"; CError reason]]) Hrest)
          as (new & -> & Hlen).
        eexists (_ :: new). split; [by rewrite <- app_assoc |].
        simpl. by rewrite Hlen.
  - induction before as [| s rest IH]; intros error after lines Hok.
    + exists []. split; reflexivity.
    + simpl in Hok. apply andb_true_iff in Hok as [Hs Hrest].
      destruct s as [error' | reason | error']; [| | discriminate Hs]; simpl.
      * destruct (IH error after
                    (lines ++ [[CText "Server error:"; CError error']]) Hrest)
          as (new & -> & Hlen).
        eexists (_ :: new). split; [by rewrite <- !app_assoc |].
        simpl. by rewrite Hlen.
      * destruct (IH error after
                    (lines ++ [[CText "Unhandled Rejection at:"; CPromise;
                                CText "reason:"; CError reason]]) Hrest)
          as (new & -> & Hlen).
        eexists (_ :: new). split; [by rewrite <- !app_assoc |].
        simpl. by rewrite Hlen.
Qed.

(** The theorem for a server error and a rejection followed by an uncaught
    exception and one more signal. *)
Lemma supervise_exits_at_first_uncaught_witness :
  exists new,
    prun {| transportFails := None; connectFails := None |} []
      (Process.supervise
         ([ServerError (ErrorInstance "write EPIPE");
           UnhandledRejection (NonError (PString "late"))]
          ++ UncaughtException (ErrorInstance "boom")
          :: [ServerError (ErrorInstance "after")]))
    = (PExited 1,
       [] ++ new ++ [[CText "Uncaught Exception:";
                      CError (ErrorInstance "boom")]])
    /\ length new = 2.
Proof.
  exact (proj2 (supervise_exits_at_first_uncaught
                  {| transportFails := None; connectFails := None |})
           [ServerError (ErrorInstance "write EPIPE");
            UnhandledRejection (NonError (PString "late"))]
           (ErrorInstance "boom") [ServerError (ErrorInstance "after")] []
           eq_refl).
Defined.

(** ** The results of the call-tool handler *)

(** X12: every call-tool request to the reference server, whatever its
    name, its arguments and the behaviour of the channel, is answered with
    a result of exactly one text block whose [isError] is absent or [true].
    It is absent only for the registered name and a recommendation sentence
    of a declared flavour: every other outcome (unknown tool, unknown
    flavour, cancellation, rejected elicitation) is flagged as an error. *)
Theorem callTool_result_invariant (params : CallToolParams) (chan : Channel)
    (log : list Event) :
  exists r log',
    run chan log
      (IceCreamMcpServer.callToolHandler IceCreamMcpServer.new params)
    = (Returned r, log')
    /\ (exists t, content r = [Text t])
    /\ (isError r = None \/ isError r = Some true)
    /\ (isError r = None ->
        params_name params = IceCreamToppingRecommenderTool.getName
        /\ exists f ts,
             In (f, ts) declaredToppings
             /\ content r
                = [Text (IceCreamToppingRecommenderTool.recommendationText
                           f ts)]).
Proof.
  rewrite callToolHandler_run.
  destruct (String.eqb_spec (params_name params)
              (toolName (IceCreamMcpServer.tool IceCreamMcpServer.new)))
    as [Hname | Hname]; cbn [negb].
  - destruct (run chan log
                (toolExecute (IceCreamMcpServer.tool IceCreamMcpServer.new)
                   (params_arguments params)
                   (Some IceCreamMcpServer.elicitInput)))
      as [[r | error] log'] eqn:Hrun.
    + exists r, log'. split; [reflexivity |].
      destruct (execute_result_cases (params_arguments params) true chan log
                  log' r Hrun) as [-> | [-> | (f & ts & Hin & ->)]].
      * split; [eexists; reflexivity |]. split; [right; reflexivity |].
        intros H. discriminate H.
      * split; [eexists; reflexivity |]. split; [right; reflexivity |].
        intros H. discriminate H.
      * split; [eexists; reflexivity |]. split; [left; reflexivity |].
        intros _. split; [exact Hname |]. exists f, ts.
        split; [exact Hin | reflexivity].
    + eexists _, _. split; [reflexivity |].
      split; [eexists; reflexivity |]. split; [right; reflexivity |].
      intros H. discriminate H.
  - eexists _, _. split; [reflexivity |].
    split; [eexists; reflexivity |]. split; [right; reflexivity |].
    intros H. discriminate H.
Qed.
